(** * Reward scalers of d3rlpy: a shallow embedding and its properties

    Embedded source: [d3rlpy/preprocessing/reward_scalers.py].

    - Python exceptions are an error monad ([result]); a method that mutates
      [self] returns the new [self]; [LOG.warning] calls are returned as the
      list of emitted messages.
    - A tensor or a numpy array is the list of its elements; arithmetic of a
      Python float with a tensor is broadcast element by element.
    - The element arithmetic is the interface [Scalar], with two instances:
      the exact rationals [Q] (the arithmetic the formulas are written for)
      and IEEE-754 binary64 ([float], what numpy and a [torch.float64] tensor
      compute).
    - The registry [REWARD_SCALER_LIST] is a [gmap] from type identifiers to
      classes, threaded through [register_reward_scaler]. *)

From Stdlib Require Import ZArith QArith Qminmax Qfield Lqa Floats List String Lia.
From Stdlib Require Import Permutation.
From stdpp Require Import base option list gmap strings.

Close Scope Q_scope.
Close Scope float_scope.
Open Scope string_scope.
Open Scope list_scope.

(** ** Exceptions *)

Inductive exn : Type :=
| NotImplementedError (msg : string)
| AssertionError (msg : string)
| RuntimeError (msg : string)
| TypeError
| ValueError.

Inductive result (A : Type) : Type :=
| Ok (a : A)
| Raise (e : exn).
Arguments Ok {A} a.
Arguments Raise {A} e.

#[global] Instance result_ret : MRet result := fun _ a => Ok a.
#[global] Instance result_bind : MBind result := fun _ _ f m =>
  match m with
  | Ok a => f a
  | Raise e => Raise e
  end.

(** [assert c, msg] *)
Definition py_assert (c : bool) (msg : string) : result unit :=
  if c then Ok tt else Raise (AssertionError msg).

Definition is_ok {A} (r : result A) : bool :=
  match r with Ok _ => true | Raise _ => false end.

(** ** Element arithmetic *)

Class Scalar (T : Type) : Type := {
  s_add : T -> T -> T;
  s_sub : T -> T -> T;
  s_mul : T -> T -> T;
  s_div : T -> T -> T;
  s_min : T -> T -> T;
  s_max : T -> T -> T;
  s_ltb : T -> T -> bool;
  s_of_nat : nat -> T
}.

(** Square root, used by [np.std] only. *)
Class Sqrt (T : Type) : Type := { s_sqrt : T -> T }.

#[global] Instance Q_scalar : Scalar Q := {|
  s_add := Qplus;
  s_sub := Qminus;
  s_mul := Qmult;
  s_div := Qdiv;
  s_min := Qmin;
  s_max := Qmax;
  s_ltb := fun x y => match Qcompare x y with Lt => true | _ => false end;
  s_of_nat := fun n => inject_Z (Z.of_nat n)
|}.

(** The minimum and maximum of numpy's loops on floats: a NaN first operand
    wins, otherwise the strict comparison decides. *)
Definition float_min (a b : float) : float :=
  if PrimFloat.is_nan a then a else if PrimFloat.ltb a b then a else b.
Definition float_max (a b : float) : float :=
  if PrimFloat.is_nan a then a else if PrimFloat.ltb b a then a else b.

#[global] Instance float_scalar : Scalar float := {|
  s_add := PrimFloat.add;
  s_sub := PrimFloat.sub;
  s_mul := PrimFloat.mul;
  s_div := PrimFloat.div;
  s_min := float_min;
  s_max := float_max;
  s_ltb := PrimFloat.ltb;
  s_of_nat := fun n => PrimFloat.of_uint63 (Uint63.of_Z (Z.of_nat n))
|}.

#[global] Instance float_sqrt : Sqrt float := {| s_sqrt := PrimFloat.sqrt |}.

(** What [np.clip] does when both bounds are [None] depends on the numpy
    release, which the source does not fix: older releases raise a ValueError,
    newer ones return the elements unchanged. *)
Class NumpyClip : Type := { clip_requires_bound : bool }.

(** ** Collaborators: episodes, datasets, numpy and torch primitives *)

Section Collaborators.
Context {T : Type} `{Scalar T} `{Sqrt T} {numpy : NumpyClip}.

(** The literals [1.0] and [1e-3] of the default arguments. *)
Definition lit_1_0 : T := s_of_nat 1.
Definition lit_1em3 : T := s_div (s_of_nat 1) (s_of_nat 1000).

(** [d3rlpy.dataset.Episode]: only the reward sequence is read. *)
Record Episode : Type := { rewards : list T }.

(** [d3rlpy.dataset.MDPDataset]: the episodes, and the truth value Python
    gives the object in [if dataset:]. The class is defined outside this
    file, so its truth value is carried as a field. *)
Record MDPDataset : Type := { episodes : list Episode; truthy : bool }.

(** [rewards = []; for episode in episodes: rewards += episode.rewards[1:].tolist()] *)
Definition collect_rewards (eps : list Episode) : list T :=
  fold_left (fun acc episode => acc ++ tail (rewards episode)) eps [].

(** [np.min], [np.max]: a ValueError on an empty sequence. *)
Definition np_min (a : list T) : result T :=
  match a with
  | [] => Raise ValueError
  | x :: xs => Ok (fold_left s_min xs x)
  end.
Definition np_max (a : list T) : result T :=
  match a with
  | [] => Raise ValueError
  | x :: xs => Ok (fold_left s_max xs x)
  end.

(** The sum of numpy's [add.reduce]. Fewer than 8 elements are added in a
    plain loop starting from 0. Up to 128 elements are added with eight
    running sums, which are combined as a balanced tree before the elements
    left over (fewer than 8) are added one by one. A longer array is split in
    two parts, the first of a length that is a multiple of 8, which are summed
    separately and added. The reduction starts from the identity 0. *)
Definition sum_loop (res : T) (a : list T) : T := fold_left s_add a res.

Fixpoint sum_unrolled (r a : list T) (blocks : nat) : list T * list T :=
  match blocks with
  | 0 => (r, a)
  | S k => sum_unrolled (zip_with s_add r (firstn 8 a)) (skipn 8 a) k
  end.

Definition pairwise_block (a : list T) : T :=
  match sum_unrolled (firstn 8 a) (skipn 8 a) (length a / 8 - 1)%nat with
  | ([r0; r1; r2; r3; r4; r5; r6; r7], rest) =>
      sum_loop
        (s_add (s_add (s_add r0 r1) (s_add r2 r3))
           (s_add (s_add r4 r5) (s_add r6 r7)))
        rest
  | _ => sum_loop (s_of_nat 0) a
  end.

Fixpoint pairwise_sum (depth : nat) (a : list T) : T :=
  if Nat.ltb (length a) 8 then sum_loop (s_of_nat 0) a
  else if Nat.leb (length a) 128 then pairwise_block a
  else
    match depth with
    | 0 => pairwise_block a
    | S d =>
        let n2 := (length a / 2 - (length a / 2) mod 8)%nat in
        s_add (pairwise_sum d (firstn n2 a)) (pairwise_sum d (skipn n2 a))
    end.

(** [np.mean], [np.std] (population standard deviation). *)
Definition np_sum (a : list T) : T :=
  s_add (s_of_nat 0) (pairwise_sum (length a) a).
Definition np_mean (a : list T) : T := s_div (np_sum a) (s_of_nat (length a)).
Definition np_std (a : list T) : T :=
  let mu := np_mean a in
  s_sqrt (np_mean (map (fun x => s_mul (s_sub x mu) (s_sub x mu)) a)).

(** Modelled from the spec: the clamp of section 4.3, [min(max(x, low), high)]
    with an absent bound leaving that side unbounded, in the minimum and
    maximum of numpy's clip loop. *)
Definition clamp (low high : option T) (x : T) : T :=
  let y := match low with Some l => s_max x l | None => x end in
  match high with Some h => s_min y h | None => y end.

(** Modelled from the spec: the same clamp as torch computes it on an element,
    replacing the element only when it compares strictly below the lower or
    strictly above the upper bound (so a NaN, and a zero of either sign at a
    zero bound, stay as they are). *)
Definition torch_clamp (low high : option T) (x : T) : T :=
  let y := match low with
           | Some l => if s_ltb x l then l else x
           | None => x
           end in
  match high with
  | Some h => if s_ltb h y then h else y
  | None => y
  end.

(** Broadcast arithmetic between a batch and a Python float. *)
Definition scalar_mul (c : T) (t : list T) : list T := map (s_mul c) t.
Definition mul_scalar (t : list T) (c : T) : list T := map (fun x => s_mul x c) t.
Definition div_scalar (t : list T) (c : T) : list T := map (fun x => s_div x c) t.
Definition sub_scalar (t : list T) (c : T) : list T := map (fun x => s_sub x c) t.
Definition add_scalar (t : list T) (c : T) : list T := map (fun x => s_add x c) t.

(** Modelled from the spec: [Tensor.clamp(min, max)]. A transform on a Clip
    scaler without any bound fails at use (sections 4.1 and 7): torch refuses
    a clamp without bounds with a RuntimeError. *)
Definition tensor_clamp (t : list T) (low high : option T) : result (list T) :=
  match low, high with
  | None, None =>
      Raise (RuntimeError
               "torch.clamp: At least one of 'min' or 'max' must not be None")
  | _, _ => Ok (map (torch_clamp low high) t)
  end.

(** Modelled from the spec: [np.clip(a, a_min, a_max)]; without any bound see
    [NumpyClip]. *)
Definition np_clip (a : list T) (low high : option T) : result (list T) :=
  match low, high with
  | None, None => if clip_requires_bound then Raise ValueError else Ok a
  | _, _ => Ok (map (clamp low high) a)
  end.
End Collaborators.

Arguments Episode T : clear implicits.
Arguments MDPDataset T : clear implicits.

(** What a method that may mutate [self], log and raise leaves behind: the
    object after the call (also when the call raises), the warnings sent to
    [LOG], and the outcome. *)
Record effect (S : Type) : Type := Effect {
  obj : S;
  logged : list string;
  outcome : result unit
}.
Arguments Effect {S} obj logged outcome.
Arguments obj {S} e.
Arguments logged {S} e.
Arguments outcome {S} e.

(** [x is not None] *)
Definition is_not_None {A} (x : option A) : bool :=
  match x with Some _ => true | None => false end.

(** ** class RewardScaler *)

Module RewardScaler.
Section Class.
Context {T Env : Type}.

Definition TYPE : string := "none".

(** The base class has no attributes. *)
Inductive t : Type := Make.

Definition fit (self : t) (eps : list (Episode T)) : effect t :=
  Effect self [] (Raise (NotImplementedError "")).

Definition fit_with_env {S : Type} (self : S) (env : Env) : effect S :=
  Effect self [] (Raise (NotImplementedError "Please initialize with dataset.")).

Definition transform (self : t) (reward : list T) : result (list T) :=
  Raise (NotImplementedError "").

Definition reverse_transform (self : t) (reward : list T) : result (list T) :=
  Raise (NotImplementedError "").

Definition transform_numpy (self : t) (reward : list T) : result (list T) :=
  Raise (NotImplementedError "").

Definition get_params (self : t) : result (list (string * option T)) :=
  Raise (NotImplementedError "").
End Class.
End RewardScaler.

(** ** class MultiplyRewardScaler(RewardScaler) *)

Module MultiplyRewardScaler.
Section Class.
Context {T : Type} `{Scalar T}.

Definition TYPE : string := "multiply".

Record t : Type := { _multiplier : option T }.

Definition __init__ (multiplier : option T) : result t :=
  Ok {| _multiplier := multiplier |}.

Definition fit (self : t) (eps : list (Episode T)) : effect t :=
  if negb (is_not_None (_multiplier self))
  then Effect self ["Please initialize MultiplyRewardScaler manually."] (Ok tt)
  else Effect self [] (Ok tt).

(** [None * reward] and [reward / None] are TypeErrors. *)
Definition transform (self : t) (reward : list T) : result (list T) :=
  match _multiplier self with
  | Some m => Ok (scalar_mul m reward)
  | None => Raise TypeError
  end.

Definition reverse_transform (self : t) (reward : list T) : result (list T) :=
  match _multiplier self with
  | Some m => Ok (div_scalar reward m)
  | None => Raise TypeError
  end.

Definition transform_numpy (self : t) (reward : list T) : result (list T) :=
  match _multiplier self with
  | Some m => Ok (scalar_mul m reward)
  | None => Raise TypeError
  end.

Definition get_params (self : t) : result (list (string * option T)) :=
  Ok [("multiplier", _multiplier self)].
End Class.
Arguments t T : clear implicits.
End MultiplyRewardScaler.

(** ** class ClipRewardScaler(RewardScaler) *)

Module ClipRewardScaler.
Section Class.
Context {T : Type} `{Scalar T} {numpy : NumpyClip}.

Definition TYPE : string := "clip".

Record t : Type := {
  _low : option T;
  _high : option T;
  _multiplier : T
}.

Definition __init__ (low high : option T) (multiplier : T) : result t :=
  Ok {| _low := low; _high := high; _multiplier := multiplier |}.

Definition fit (self : t) (eps : list (Episode T)) : effect t :=
  if negb (is_not_None (_low self)) && negb (is_not_None (_high self))
  then Effect self ["Please initialize ClipRewardScaler manually."] (Ok tt)
  else Effect self [] (Ok tt).

Definition transform (self : t) (reward : list T) : result (list T) :=
  clamped ← tensor_clamp reward (_low self) (_high self);
  Ok (scalar_mul (_multiplier self) clamped).

Definition reverse_transform (self : t) (reward : list T) : result (list T) :=
  Ok (div_scalar reward (_multiplier self)).

Definition transform_numpy (self : t) (reward : list T) : result (list T) :=
  clipped ← np_clip reward (_low self) (_high self);
  Ok (scalar_mul (_multiplier self) clipped).

Definition get_params (self : t) : result (list (string * option T)) :=
  Ok [("low", _low self); ("high", _high self);
      ("multiplier", Some (_multiplier self))].
End Class.
Arguments t T : clear implicits.
End ClipRewardScaler.

(** ** class MinMaxRewardScaler(RewardScaler) *)

Module MinMaxRewardScaler.
Section Class.
Context {T : Type} `{Scalar T}.

Definition TYPE : string := "min_max".

Record t : Type := {
  _minimum : option T;
  _maximum : option T;
  _multiplier : T
}.

Definition set_minimum (self : t) (v : option T) : t :=
  {| _minimum := v; _maximum := _maximum self; _multiplier := _multiplier self |}.
Definition set_maximum (self : t) (v : option T) : t :=
  {| _minimum := _minimum self; _maximum := v; _multiplier := _multiplier self |}.

Definition fit (self : t) (eps : list (Episode T)) : effect t :=
  if is_not_None (_minimum self) && is_not_None (_maximum self)
  then Effect self [] (Ok tt)
  else
    let rewards := collect_rewards eps in
    match np_min rewards with
    | Raise e => Effect self [] (Raise e)
    | Ok lo =>
        let self := set_minimum self (Some lo) in
        match np_max rewards with
        | Raise e => Effect self [] (Raise e)
        | Ok hi => Effect (set_maximum self (Some hi)) [] (Ok tt)
        end
    end.

Definition __init__ (dataset : option (MDPDataset T))
    (minimum maximum : option T) (multiplier : T) : result t :=
  let self := {| _minimum := None; _maximum := None; _multiplier := multiplier |} in
  if match dataset with Some d => truthy d | None => false end then
    let e := fit self (from_option episodes [] dataset) in
    _ ← outcome e; Ok (obj e)
  else if is_not_None minimum && is_not_None maximum
  then Ok (set_maximum (set_minimum self minimum) maximum)
  else Ok self.

Definition transform (self : t) (reward : list T) : result (list T) :=
  match _minimum self, _maximum self with
  | Some minimum, Some maximum =>
      let base := s_sub maximum minimum in
      Ok (div_scalar (scalar_mul (_multiplier self) (sub_scalar reward minimum)) base)
  | _, _ => Raise (AssertionError "")
  end.

Definition reverse_transform (self : t) (reward : list T) : result (list T) :=
  match _minimum self, _maximum self with
  | Some minimum, Some maximum =>
      let base := s_sub maximum minimum in
      Ok (add_scalar (div_scalar (mul_scalar reward base) (_multiplier self)) minimum)
  | _, _ => Raise (AssertionError "")
  end.

Definition transform_numpy (self : t) (reward : list T) : result (list T) :=
  match _minimum self, _maximum self with
  | Some minimum, Some maximum =>
      let base := s_sub maximum minimum in
      Ok (div_scalar (scalar_mul (_multiplier self) (sub_scalar reward minimum)) base)
  | _, _ => Raise (AssertionError "")
  end.

Definition get_params (self : t) : result (list (string * option T)) :=
  Ok [("minimum", _minimum self); ("maximum", _maximum self);
      ("multiplier", Some (_multiplier self))].
End Class.
Arguments t T : clear implicits.
End MinMaxRewardScaler.

(** ** class StandardRewardScaler(RewardScaler) *)

Module StandardRewardScaler.
Section Class.
Context {T : Type} `{Scalar T} `{Sqrt T}.

Definition TYPE : string := "standard".

Record t : Type := {
  _mean : option T;
  _std : option T;
  _eps : T;
  _multiplier : T
}.

Definition set_mean (self : t) (v : option T) : t :=
  {| _mean := v; _std := _std self; _eps := _eps self;
     _multiplier := _multiplier self |}.
Definition set_std (self : t) (v : option T) : t :=
  {| _mean := _mean self; _std := v; _eps := _eps self;
     _multiplier := _multiplier self |}.

Definition fit (self : t) (eps : list (Episode T)) : effect t :=
  if is_not_None (_mean self) && is_not_None (_std self)
  then Effect self [] (Ok tt)
  else
    let rewards := collect_rewards eps in
    let self := set_mean self (Some (np_mean rewards)) in
    Effect (set_std self (Some (np_std rewards))) [] (Ok tt).

Definition __init__ (dataset : option (MDPDataset T))
    (mean std : option T) (eps multiplier : T) : result t :=
  let self := {| _mean := None; _std := None; _eps := eps;
                 _multiplier := multiplier |} in
  if match dataset with Some d => truthy d | None => false end then
    let e := fit self (from_option episodes [] dataset) in
    _ ← outcome e; Ok (obj e)
  else if is_not_None mean && is_not_None std
  then Ok (set_std (set_mean self mean) std)
  else Ok self.

Definition transform (self : t) (reward : list T) : result (list T) :=
  match _mean self, _std self with
  | Some mean, Some std =>
      let nonzero_std := s_add std (_eps self) in
      Ok (div_scalar (scalar_mul (_multiplier self) (sub_scalar reward mean))
            nonzero_std)
  | _, _ => Raise (AssertionError "")
  end.

Definition reverse_transform (self : t) (reward : list T) : result (list T) :=
  match _mean self, _std self with
  | Some mean, Some std =>
      Ok (add_scalar
            (div_scalar (mul_scalar reward (s_add std (_eps self)))
               (_multiplier self))
            mean)
  | _, _ => Raise (AssertionError "")
  end.

Definition transform_numpy (self : t) (reward : list T) : result (list T) :=
  match _mean self, _std self with
  | Some mean, Some std =>
      let nonzero_std := s_add std (_eps self) in
      Ok (div_scalar (scalar_mul (_multiplier self) (sub_scalar reward mean))
            nonzero_std)
  | _, _ => Raise (AssertionError "")
  end.

Definition get_params (self : t) : result (list (string * option T)) :=
  Ok [("mean", _mean self); ("std", _std self); ("eps", Some (_eps self));
      ("multiplier", Some (_multiplier self))].
End Class.
Arguments t T : clear implicits.
End StandardRewardScaler.

(** ** Instances, classes and the registry *)

#[global] Instance result_fmap : FMap result := fun _ _ f m =>
  match m with
  | Ok a => Ok (f a)
  | Raise e => Raise e
  end.

Definition effect_map {S S'} (f : S -> S') (e : effect S) : effect S' :=
  Effect (f (obj e)) (logged e) (outcome e).

(** Statements in sequence: the second runs only if the first did not raise. *)
Definition and_then {S} (e : effect S) (k : S -> effect S) : effect S :=
  match outcome e with
  | Ok _ => let e' := k (obj e) in
            Effect (obj e') (logged e ++ logged e') (outcome e')
  | Raise _ => e
  end.

Section Registry.
Context {T Env : Type} `{Scalar T} `{Sqrt T} {numpy : NumpyClip}.

(** An object whose class derives from [RewardScaler]. *)
Inductive scaler : Type :=
| Base (self : @RewardScaler.t)
| Multiply (self : MultiplyRewardScaler.t T)
| Clip (self : ClipRewardScaler.t T)
| MinMax (self : MinMaxRewardScaler.t T)
| Standard (self : StandardRewardScaler.t T).

(** Method lookup through the class of the object. *)
Definition get_type (self : scaler) : string :=
  match self with
  | Base _ => RewardScaler.TYPE
  | Multiply _ => MultiplyRewardScaler.TYPE
  | Clip _ => ClipRewardScaler.TYPE
  | MinMax _ => MinMaxRewardScaler.TYPE
  | Standard _ => StandardRewardScaler.TYPE
  end.

Definition fit (self : scaler) (eps : list (Episode T)) : effect scaler :=
  match self with
  | Base s => effect_map Base (RewardScaler.fit s eps)
  | Multiply s => effect_map Multiply (MultiplyRewardScaler.fit s eps)
  | Clip s => effect_map Clip (ClipRewardScaler.fit s eps)
  | MinMax s => effect_map MinMax (MinMaxRewardScaler.fit s eps)
  | Standard s => effect_map Standard (StandardRewardScaler.fit s eps)
  end.

(** No subclass overrides [fit_with_env]. *)
Definition fit_with_env (self : scaler) (env : Env) : effect scaler :=
  RewardScaler.fit_with_env self env.

Definition transform (self : scaler) (reward : list T) : result (list T) :=
  match self with
  | Base s => RewardScaler.transform s reward
  | Multiply s => MultiplyRewardScaler.transform s reward
  | Clip s => ClipRewardScaler.transform s reward
  | MinMax s => MinMaxRewardScaler.transform s reward
  | Standard s => StandardRewardScaler.transform s reward
  end.

Definition reverse_transform (self : scaler) (reward : list T) : result (list T) :=
  match self with
  | Base s => RewardScaler.reverse_transform s reward
  | Multiply s => MultiplyRewardScaler.reverse_transform s reward
  | Clip s => ClipRewardScaler.reverse_transform s reward
  | MinMax s => MinMaxRewardScaler.reverse_transform s reward
  | Standard s => StandardRewardScaler.reverse_transform s reward
  end.

Definition transform_numpy (self : scaler) (reward : list T) : result (list T) :=
  match self with
  | Base s => RewardScaler.transform_numpy s reward
  | Multiply s => MultiplyRewardScaler.transform_numpy s reward
  | Clip s => ClipRewardScaler.transform_numpy s reward
  | MinMax s => MinMaxRewardScaler.transform_numpy s reward
  | Standard s => StandardRewardScaler.transform_numpy s reward
  end.

Definition get_params (self : scaler) : result (list (string * option T)) :=
  match self with
  | Base s => RewardScaler.get_params s
  | Multiply s => MultiplyRewardScaler.get_params s
  | Clip s => ClipRewardScaler.get_params s
  | MinMax s => MinMaxRewardScaler.get_params s
  | Standard s => StandardRewardScaler.get_params s
  end.

(** *** Keyword arguments

    [**kwargs] is a list of named values. The constructors are typed by
    their annotations: a value of another type than the annotation of its
    parameter is not a call of the typed program and is answered like an
    unknown keyword, with a TypeError. *)
Inductive pyval : Type :=
| PyNone
| PyFloat (x : T)
| PyDataset (d : MDPDataset T).

Fixpoint kw_get (kwargs : list (string * pyval)) (name : string) : option pyval :=
  match kwargs with
  | [] => None
  | (k, v) :: rest => if String.eqb k name then Some v else kw_get rest name
  end.

Definition check_keys (allowed : list string) (kwargs : list (string * pyval))
  : result unit :=
  if forallb (fun kv => existsb (String.eqb (fst kv)) allowed) kwargs
  then Ok tt else Raise TypeError.

Definition arg_optional_float (v : option pyval) : result (option T) :=
  match v with
  | None | Some PyNone => Ok None
  | Some (PyFloat x) => Ok (Some x)
  | Some (PyDataset _) => Raise TypeError
  end.

Definition arg_float (default : T) (v : option pyval) : result T :=
  match v with
  | None => Ok default
  | Some (PyFloat x) => Ok x
  | Some _ => Raise TypeError
  end.

Definition arg_optional_dataset (v : option pyval)
  : result (option (MDPDataset T)) :=
  match v with
  | None | Some PyNone => Ok None
  | Some (PyDataset d) => Ok (Some d)
  | Some (PyFloat _) => Raise TypeError
  end.

(** [Type[RewardScaler]]: the class attribute [TYPE] and the call of
    the class with keyword arguments. *)
Record scaler_class : Type := {
  cls_TYPE : string;
  cls_call : list (string * pyval) -> result scaler
}.

Definition RewardScaler_class : scaler_class := {|
  cls_TYPE := RewardScaler.TYPE;
  cls_call := fun kwargs =>
    _ ← check_keys [] kwargs;
    Ok (Base RewardScaler.Make)
|}.

Definition MultiplyRewardScaler_class : scaler_class := {|
  cls_TYPE := MultiplyRewardScaler.TYPE;
  cls_call := fun kwargs =>
    _ ← check_keys ["multiplier"] kwargs;
    multiplier ← arg_optional_float (kw_get kwargs "multiplier");
    Multiply <$> MultiplyRewardScaler.__init__ multiplier
|}.

Definition ClipRewardScaler_class : scaler_class := {|
  cls_TYPE := ClipRewardScaler.TYPE;
  cls_call := fun kwargs =>
    _ ← check_keys ["low"; "high"; "multiplier"] kwargs;
    low ← arg_optional_float (kw_get kwargs "low");
    high ← arg_optional_float (kw_get kwargs "high");
    multiplier ← arg_float lit_1_0 (kw_get kwargs "multiplier");
    Clip <$> ClipRewardScaler.__init__ low high multiplier
|}.

Definition MinMaxRewardScaler_class : scaler_class := {|
  cls_TYPE := MinMaxRewardScaler.TYPE;
  cls_call := fun kwargs =>
    _ ← check_keys ["dataset"; "minimum"; "maximum"; "multiplier"] kwargs;
    dataset ← arg_optional_dataset (kw_get kwargs "dataset");
    minimum ← arg_optional_float (kw_get kwargs "minimum");
    maximum ← arg_optional_float (kw_get kwargs "maximum");
    multiplier ← arg_float lit_1_0 (kw_get kwargs "multiplier");
    MinMax <$> MinMaxRewardScaler.__init__ dataset minimum maximum multiplier
|}.

Definition StandardRewardScaler_class : scaler_class := {|
  cls_TYPE := StandardRewardScaler.TYPE;
  cls_call := fun kwargs =>
    _ ← check_keys ["dataset"; "mean"; "std"; "eps"; "multiplier"] kwargs;
    dataset ← arg_optional_dataset (kw_get kwargs "dataset");
    mean ← arg_optional_float (kw_get kwargs "mean");
    std ← arg_optional_float (kw_get kwargs "std");
    eps ← arg_float lit_1em3 (kw_get kwargs "eps");
    multiplier ← arg_float lit_1_0 (kw_get kwargs "multiplier");
    Standard <$> StandardRewardScaler.__init__ dataset mean std eps multiplier
|}.

(** *** REWARD_SCALER_LIST *)

(** [name in REWARD_SCALER_LIST] *)
Definition registered (name : string) (reg : gmap string scaler_class) : bool :=
  bool_decide (is_Some (reg !! name)).

Definition register_reward_scaler (cls : scaler_class)
    (reg : gmap string scaler_class) : effect (gmap string scaler_class) :=
  let is_registered := registered (cls_TYPE cls) reg in
  match py_assert (negb is_registered)
          (String.append (cls_TYPE cls) " seems to be already registered") with
  | Raise e => Effect reg [] (Raise e)
  | Ok _ => Effect (<[cls_TYPE cls := cls]> reg) [] (Ok tt)
  end.

(** [assert isinstance(reward_scaler, RewardScaler)] holds of every value of
    type [scaler]. A lookup that misses after the assertion would be a
    KeyError; the assertion makes that branch dead. *)
Definition create_reward_scaler (name : string) (kwargs : list (string * pyval))
    (reg : gmap string scaler_class) : result scaler :=
  _ ← py_assert (registered name reg)
        (String.append name " seems not to be registered.");
  match reg !! name with
  | Some cls => cls_call cls kwargs
  | None => Raise (AssertionError "")
  end.

(** The module body: the dictionary starts empty and the four calls at the
    end of the file run in order. *)
Definition module_init : effect (gmap string scaler_class) :=
  and_then (and_then (and_then
    (register_reward_scaler MultiplyRewardScaler_class ∅)
    (register_reward_scaler ClipRewardScaler_class))
    (register_reward_scaler MinMaxRewardScaler_class))
    (register_reward_scaler StandardRewardScaler_class).

Definition REWARD_SCALER_LIST : gmap string scaler_class := obj module_init.
End Registry.

Arguments scaler T : clear implicits.
Arguments pyval T : clear implicits.
Arguments scaler_class T : clear implicits.

(** ** Specification vocabulary *)

(** Element-wise equality of two batches of rationals. *)
Definition batch_eq (a b : list Q) : Prop := Forall2 Qeq a b.

(** [lo] is a smallest element of [a]; [hi] is a largest element of [a]. *)
Definition is_minimum (lo : Q) (a : list Q) : Prop :=
  In lo a /\ Forall (fun x => (lo <= x)%Q) a.
Definition is_maximum (hi : Q) (a : list Q) : Prop :=
  In hi a /\ Forall (fun x => (x <= hi)%Q) a.

(** The rewards [fit] reads: every episode's rewards without the first. *)
Definition non_first_rewards {T} (eps : list (Episode T)) : list T :=
  concat (List.map (fun episode => tail (rewards episode)) eps).

(** The two statistics of a scaler are both set or both unset. *)
Definition both_or_neither {A B} (a : option A) (b : option B) : Prop :=
  is_Some a <-> is_Some b.

(** The corpus of two episodes with rewards [0, 3, -2] and [0, 7]. *)
Definition corpus_Q : list (Episode Q) :=
  [ {| rewards := [0; 3; -2]%Q |}; {| rewards := [0; 7]%Q |} ].
Definition corpus_float : list (Episode float) :=
  [ {| rewards := [0; 3; -2]%float |}; {| rewards := [0; 7]%float |} ].

(** Concrete binary64 scalers: multiply by 3; min-max on [0, 22]; standardise
    with mean 0, std 6 and eps 1. Every parameter is an exact binary64 value,
    every multiplier is nonzero, [maximum - minimum = 22] and [std + eps = 7]. *)
Definition multiply_by_3 : MultiplyRewardScaler.t float :=
  {| MultiplyRewardScaler._multiplier := Some 3%float |}.
Definition min_max_0_22 : MinMaxRewardScaler.t float :=
  {| MinMaxRewardScaler._minimum := Some 0%float;
     MinMaxRewardScaler._maximum := Some 22%float;
     MinMaxRewardScaler._multiplier := 1%float |}.
Definition standard_0_6_1 : StandardRewardScaler.t float :=
  {| StandardRewardScaler._mean := Some 0%float;
     StandardRewardScaler._std := Some 6%float;
     StandardRewardScaler._eps := 1%float;
     StandardRewardScaler._multiplier := 1%float |}.

(** The binary64 value of the Python literal [0.1]. *)
Definition float_0_1 : float := 0x1.999999999999ap-4%float.

(** Scaler objects by their attributes. *)
Definition multiply_with {T} (multiplier : option T) : MultiplyRewardScaler.t T :=
  {| MultiplyRewardScaler._multiplier := multiplier |}.
Definition clip_with {T} (low high : option T) (multiplier : T)
  : ClipRewardScaler.t T :=
  {| ClipRewardScaler._low := low; ClipRewardScaler._high := high;
     ClipRewardScaler._multiplier := multiplier |}.
Definition min_max_with {T} (minimum maximum : option T) (multiplier : T)
  : MinMaxRewardScaler.t T :=
  {| MinMaxRewardScaler._minimum := minimum;
     MinMaxRewardScaler._maximum := maximum;
     MinMaxRewardScaler._multiplier := multiplier |}.
Definition standard_with {T} (mean std : option T) (eps multiplier : T)
  : StandardRewardScaler.t T :=
  {| StandardRewardScaler._mean := mean; StandardRewardScaler._std := std;
     StandardRewardScaler._eps := eps;
     StandardRewardScaler._multiplier := multiplier |}.

Definition numpy_clip_passes : NumpyClip := {| clip_requires_bound := false |}.

(** [y] is the reward [r] clamped to the bounds that are present: the lower
    bound when [r] lies below it, the upper bound when [r] lies above it, and
    [r] itself when it lies within all bounds present. *)
Definition is_clamp_of (low high : option Q) (r y : Q) : Prop :=
  (forall l, low = Some l -> (r < l)%Q -> (y == l)%Q)
  /\ (forall h, high = Some h -> (h < r)%Q -> (y == h)%Q)
  /\ ((forall l, low = Some l -> (l <= r)%Q) ->
      (forall h, high = Some h -> (r <= h)%Q) -> (y == r)%Q).

(** Two outcomes over the rationals are the same: the same exception, or
    batches that are equal element by element. *)
Definition same_outcome (a b : result (list Q)) : Prop :=
  match a, b with
  | Ok x, Ok y => batch_eq x y
  | Raise e, Raise e' => e = e'
  | _, _ => False
  end.

(** Every element of a batch of rationals lies between [lo] and [hi]. *)
Definition batch_within (lo hi : Q) (a : list Q) : Prop :=
  Forall (fun y => (lo <= y)%Q /\ (y <= hi)%Q) a.

(** A parameter dictionary passed back as keyword arguments: every value is
    passed as it is, [None] included. *)
Definition kwargs_of_params {T} (params : list (string * option T))
  : list (string * pyval T) :=
  List.map (fun kv => (fst kv,
                       match snd kv with
                       | Some x => PyFloat x
                       | None => PyNone
                       end)) params.

(** The statistics of a Min-Max or Standardize object are both set or both
    unset; the other classes carry no such pair. *)
Definition statistics_paired {T} (self : scaler T) : Prop :=
  match self with
  | MinMax s => both_or_neither (MinMaxRewardScaler._minimum s)
                  (MinMaxRewardScaler._maximum s)
  | Standard s => both_or_neither (StandardRewardScaler._mean s)
                    (StandardRewardScaler._std s)
  | _ => True
  end.

(** * Properties *)

(** ** Exact arithmetic: the rational instance *)

Section ExactArithmetic.
Open Scope Q_scope.

Lemma batch_eq_map (f : Q -> Q) (reward : list Q) :
  (forall r, f r == r) -> batch_eq (List.map f reward) reward.
Proof.
  intros Hf. unfold batch_eq.
  induction reward as [|r reward IH]; simpl; constructor; auto.
Qed.

Lemma Qmin_choice (x y : Q) : Qmin x y = x \/ Qmin x y = y.
Proof.
  unfold Qmin, GenericMinMax.gmin. destruct (x ?= y); auto.
Qed.

Lemma Qmax_choice (x y : Q) : Qmax x y = x \/ Qmax x y = y.
Proof.
  unfold Qmax, GenericMinMax.gmax. destruct (x ?= y); auto.
Qed.

Lemma fold_min_spec (xs : list Q) (x : Q) :
  is_minimum (fold_left Qmin xs x) (x :: xs).
Proof.
  revert x. induction xs as [|y xs IH]; intros x; simpl.
  - split; [now left | constructor; [apply Qle_refl | constructor]].
  - destruct (IH (Qmin x y)) as [Hin Hall]. split.
    + destruct Hin as [Heq | Hin]; [| now right; right].
      rewrite <- Heq. destruct (Qmin_choice x y) as [-> | ->];
        [now left | now right; left].
    + apply Forall_cons_iff in Hall as [Hhd Htl].
      constructor; [| constructor]; auto.
      * eapply Qle_trans; [exact Hhd | apply Q.le_min_l].
      * eapply Qle_trans; [exact Hhd | apply Q.le_min_r].
Qed.

Lemma fold_max_spec (xs : list Q) (x : Q) :
  is_maximum (fold_left Qmax xs x) (x :: xs).
Proof.
  revert x. induction xs as [|y xs IH]; intros x; simpl.
  - split; [now left | constructor; [apply Qle_refl | constructor]].
  - destruct (IH (Qmax x y)) as [Hin Hall]. split.
    + destruct Hin as [Heq | Hin]; [| now right; right].
      rewrite <- Heq. destruct (Qmax_choice x y) as [-> | ->];
        [now left | now right; left].
    + apply Forall_cons_iff in Hall as [Hhd Htl].
      constructor; [| constructor]; auto.
      * eapply Qle_trans; [apply Q.le_max_l | exact Hhd].
      * eapply Qle_trans; [apply Q.le_max_r | exact Hhd].
Qed.

Lemma np_min_spec (a : list Q) :
  a <> [] -> exists lo, np_min a = Ok lo /\ is_minimum lo a.
Proof.
  destruct a as [|x xs]; [congruence |]. intros _.
  exists (fold_left Qmin xs x). split; [reflexivity | apply fold_min_spec].
Qed.

Lemma np_max_spec (a : list Q) :
  a <> [] -> exists hi, np_max a = Ok hi /\ is_maximum hi a.
Proof.
  destruct a as [|x xs]; [congruence |]. intros _.
  exists (fold_left Qmax xs x). split; [reflexivity | apply fold_max_spec].
Qed.
End ExactArithmetic.

(** ** The rewards collected by [fit] *)

Section Collect.
Context {T : Type}.

Lemma collect_rewards_from (eps : list (Episode T)) (acc : list T) :
  fold_left (fun acc episode => acc ++ tail (rewards episode)) eps acc
  = acc ++ non_first_rewards eps.
Proof.
  revert acc. induction eps as [|e eps IH]; intros acc; simpl.
  - now rewrite app_nil_r.
  - rewrite IH. unfold non_first_rewards. simpl. now rewrite app_assoc.
Qed.

Lemma collect_rewards_concat (eps : list (Episode T)) :
  collect_rewards eps = non_first_rewards eps.
Proof. unfold collect_rewards. now rewrite collect_rewards_from. Qed.
End Collect.

(** ** Round trip *)

Section RoundTrip.
Open Scope Q_scope.

Lemma multiply_round_trip_Q (m : Q) (reward : list Q) :
  ~ m == 0 ->
  batch_eq (div_scalar (scalar_mul m reward) m) reward.
Proof.
  intros Hm. unfold div_scalar, scalar_mul. rewrite List.map_map.
  apply batch_eq_map. intros r. simpl. field. exact Hm.
Qed.

Lemma min_max_round_trip_Q (minimum maximum multiplier : Q) (reward : list Q) :
  ~ multiplier == 0 -> ~ maximum == minimum ->
  batch_eq
    (add_scalar
       (div_scalar
          (mul_scalar
             (div_scalar (scalar_mul multiplier (sub_scalar reward minimum))
                (maximum - minimum))
             (maximum - minimum))
          multiplier)
       minimum)
    reward.
Proof.
  intros Hm Hbase.
  unfold add_scalar, div_scalar, mul_scalar, scalar_mul, sub_scalar.
  rewrite !List.map_map. apply batch_eq_map. intros r. simpl. field.
  split; [| exact Hm].
  intros Hz. apply Hbase. rewrite <- (Qplus_0_l minimum), <- Hz. ring.
Qed.

Lemma standard_round_trip_Q (mean nonzero_std multiplier : Q) (reward : list Q) :
  ~ multiplier == 0 -> ~ nonzero_std == 0 ->
  batch_eq
    (add_scalar
       (div_scalar
          (mul_scalar
             (div_scalar (scalar_mul multiplier (sub_scalar reward mean))
                nonzero_std)
             nonzero_std)
          multiplier)
       mean)
    reward.
Proof.
  intros Hm Hstd.
  unfold add_scalar, div_scalar, mul_scalar, scalar_mul, sub_scalar.
  rewrite !List.map_map. apply batch_eq_map. intros r. simpl. field.
  split; assumption.
Qed.
End RoundTrip.

(** C1, as amended. In exact rational arithmetic, for the Multiply, Min-Max and
    Standardize scalers with their parameters set, a nonzero multiplier,
    [maximum] different from [minimum] and [std + eps] nonzero,
    [reverse_transform] applied to the result of [transform] gives back every
    reward of the batch. *)
Theorem round_trip_in_exact_arithmetic :
  (forall (m : Q) (reward : list Q),
      ~ (m == 0)%Q ->
      exists out,
        MultiplyRewardScaler.transform
          {| MultiplyRewardScaler._multiplier := Some m |} reward
        ≫= MultiplyRewardScaler.reverse_transform
             {| MultiplyRewardScaler._multiplier := Some m |} = Ok out
        /\ batch_eq out reward)
  /\ (forall (minimum maximum multiplier : Q) (reward : list Q),
      ~ (multiplier == 0)%Q -> ~ (maximum == minimum)%Q ->
      exists out,
        MinMaxRewardScaler.transform
          {| MinMaxRewardScaler._minimum := Some minimum;
             MinMaxRewardScaler._maximum := Some maximum;
             MinMaxRewardScaler._multiplier := multiplier |} reward
        ≫= MinMaxRewardScaler.reverse_transform
             {| MinMaxRewardScaler._minimum := Some minimum;
                MinMaxRewardScaler._maximum := Some maximum;
                MinMaxRewardScaler._multiplier := multiplier |} = Ok out
        /\ batch_eq out reward)
  /\ (forall (mean std eps multiplier : Q) (reward : list Q),
      ~ (multiplier == 0)%Q -> ~ (std + eps == 0)%Q ->
      exists out,
        StandardRewardScaler.transform
          {| StandardRewardScaler._mean := Some mean;
             StandardRewardScaler._std := Some std;
             StandardRewardScaler._eps := eps;
             StandardRewardScaler._multiplier := multiplier |} reward
        ≫= StandardRewardScaler.reverse_transform
             {| StandardRewardScaler._mean := Some mean;
                StandardRewardScaler._std := Some std;
                StandardRewardScaler._eps := eps;
                StandardRewardScaler._multiplier := multiplier |} = Ok out
        /\ batch_eq out reward).
Proof.
  split; [| split].
  - intros m reward Hm. eexists. split; [reflexivity |].
    now apply multiply_round_trip_Q.
  - intros minimum maximum multiplier reward Hm Hbase.
    eexists. split; [reflexivity |].
    now apply min_max_round_trip_Q.
  - intros mean std eps multiplier reward Hm Hstd.
    eexists. split; [reflexivity |].
    now apply standard_round_trip_Q.
Qed.

Lemma round_trip_in_exact_arithmetic_witness :
  (~ (3 == 0)%Q /\ ~ (10 == 0)%Q /\ ~ (2 + 1 == 0)%Q)
  /\ (exists out,
       MultiplyRewardScaler.transform
         {| MultiplyRewardScaler._multiplier := Some 3%Q |} [(1 # 10)%Q]
       ≫= MultiplyRewardScaler.reverse_transform
            {| MultiplyRewardScaler._multiplier := Some 3%Q |} = Ok out
       /\ batch_eq out [(1 # 10)%Q])
  /\ (exists out,
       MinMaxRewardScaler.transform
         {| MinMaxRewardScaler._minimum := Some 0%Q;
            MinMaxRewardScaler._maximum := Some 10%Q;
            MinMaxRewardScaler._multiplier := 3%Q |} [5%Q; 15%Q]
       ≫= MinMaxRewardScaler.reverse_transform
            {| MinMaxRewardScaler._minimum := Some 0%Q;
               MinMaxRewardScaler._maximum := Some 10%Q;
               MinMaxRewardScaler._multiplier := 3%Q |} = Ok out
       /\ batch_eq out [5%Q; 15%Q])
  /\ (exists out,
       StandardRewardScaler.transform
         {| StandardRewardScaler._mean := Some 0%Q;
            StandardRewardScaler._std := Some 2%Q;
            StandardRewardScaler._eps := 1%Q;
            StandardRewardScaler._multiplier := 3%Q |} [29%Q]
       ≫= StandardRewardScaler.reverse_transform
            {| StandardRewardScaler._mean := Some 0%Q;
               StandardRewardScaler._std := Some 2%Q;
               StandardRewardScaler._eps := 1%Q;
               StandardRewardScaler._multiplier := 3%Q |} = Ok out
       /\ batch_eq out [29%Q]).
Proof.
  assert (H3 : ~ (3 == 0)%Q) by (intros Hz; vm_compute in Hz; discriminate Hz).
  assert (H10 : ~ (10 == 0)%Q) by (intros Hz; vm_compute in Hz; discriminate Hz).
  assert (H21 : ~ (2 + 1 == 0)%Q) by (intros Hz; vm_compute in Hz; discriminate Hz).
  split; [now repeat split |]. split; [| split].
  - exact (proj1 round_trip_in_exact_arithmetic 3%Q [(1 # 10)%Q] H3).
  - exact (proj1 (proj2 round_trip_in_exact_arithmetic)
             0%Q 10%Q 3%Q [5%Q; 15%Q] H3 H10).
  - exact (proj2 (proj2 round_trip_in_exact_arithmetic)
             0%Q 2%Q 1%Q 3%Q [29%Q] H3 H21).
Defined.

(** C1, as stated, fails on binary64 floats: with multiplier 3 the reward 0.1
    comes back as 0.10000000000000002; Min-Max on [0, 22] returns
    14.999999999999998 for 15; Standardize with std + eps = 7 returns
    29.000000000000004 for 29. *)
Lemma round_trip_fails_in_binary64 :
  (exists y,
      MultiplyRewardScaler.transform multiply_by_3 [float_0_1]
      ≫= MultiplyRewardScaler.reverse_transform multiply_by_3 = Ok [y]
      /\ PrimFloat.eqb y float_0_1 = false)
  /\ (exists y,
      MinMaxRewardScaler.transform min_max_0_22 [15%float]
      ≫= MinMaxRewardScaler.reverse_transform min_max_0_22 = Ok [y]
      /\ PrimFloat.eqb y 15%float = false)
  /\ (exists y,
      StandardRewardScaler.transform standard_0_6_1 [29%float]
      ≫= StandardRewardScaler.reverse_transform standard_0_6_1 = Ok [y]
      /\ PrimFloat.eqb y 29%float = false).
Proof.
  split; [| split]; eexists; (split; [vm_compute; reflexivity | vm_compute; reflexivity]).
Qed.

(** Clipping is not undone even in exact arithmetic: with bounds -1 and 1 and
    multiplier 2 the reward 5 comes back as 1. *)
Lemma clip_round_trip_is_lossy :
  exists y,
    ClipRewardScaler.transform
      {| ClipRewardScaler._low := Some (-1)%Q; ClipRewardScaler._high := Some 1%Q;
         ClipRewardScaler._multiplier := 2%Q |} [5%Q]
    ≫= ClipRewardScaler.reverse_transform
         {| ClipRewardScaler._low := Some (-1)%Q;
            ClipRewardScaler._high := Some 1%Q;
            ClipRewardScaler._multiplier := 2%Q |}
    = Ok [y]
    /\ (y == 1)%Q /\ ~ (y == 5)%Q.
Proof.
  eexists. split; [vm_compute; reflexivity |].
  split; [reflexivity | intros Hz; vm_compute in Hz; discriminate Hz].
Qed.

(** ** Fitting Min-Max *)

Lemma min_max_fit_unset {T} `{Scalar T} (self : MinMaxRewardScaler.t T)
    (eps : list (Episode T)) (lo hi : T) :
  is_not_None (MinMaxRewardScaler._minimum self)
    && is_not_None (MinMaxRewardScaler._maximum self) = false ->
  np_min (non_first_rewards eps) = Ok lo ->
  np_max (non_first_rewards eps) = Ok hi ->
  MinMaxRewardScaler.fit self eps
  = Effect {| MinMaxRewardScaler._minimum := Some lo;
              MinMaxRewardScaler._maximum := Some hi;
              MinMaxRewardScaler._multiplier := MinMaxRewardScaler._multiplier self |}
      [] (Ok tt).
Proof.
  intros Hunset Hlo Hhi. unfold MinMaxRewardScaler.fit.
  rewrite Hunset, collect_rewards_concat, Hlo, Hhi. reflexivity.
Qed.

(** C2. On a scaler whose minimum and maximum are not both set, [fit] reads the
    concatenation of every episode's rewards without the first one and, when
    that sequence is not empty, stores its smallest element as [minimum] and
    its largest as [maximum]; for the corpus [[0, 3, -2], [0, 7]] it stores
    -2 and 7, in exact arithmetic and in binary64. *)
Theorem min_max_fit_sample_extrema :
  (forall (self : MinMaxRewardScaler.t Q) (eps : list (Episode Q)),
      is_not_None (MinMaxRewardScaler._minimum self)
        && is_not_None (MinMaxRewardScaler._maximum self) = false ->
      non_first_rewards eps <> [] ->
      exists lo hi,
        MinMaxRewardScaler.fit self eps
        = Effect {| MinMaxRewardScaler._minimum := Some lo;
                    MinMaxRewardScaler._maximum := Some hi;
                    MinMaxRewardScaler._multiplier :=
                      MinMaxRewardScaler._multiplier self |}
            [] (Ok tt)
        /\ is_minimum lo (non_first_rewards eps)
        /\ is_maximum hi (non_first_rewards eps))
  /\ MinMaxRewardScaler.fit
       {| MinMaxRewardScaler._minimum := None; MinMaxRewardScaler._maximum := None;
          MinMaxRewardScaler._multiplier := 1%Q |} corpus_Q
     = Effect {| MinMaxRewardScaler._minimum := Some (-2)%Q;
                 MinMaxRewardScaler._maximum := Some 7%Q;
                 MinMaxRewardScaler._multiplier := 1%Q |} [] (Ok tt)
  /\ MinMaxRewardScaler.fit
       {| MinMaxRewardScaler._minimum := None; MinMaxRewardScaler._maximum := None;
          MinMaxRewardScaler._multiplier := 1%float |} corpus_float
     = Effect {| MinMaxRewardScaler._minimum := Some (-2)%float;
                 MinMaxRewardScaler._maximum := Some 7%float;
                 MinMaxRewardScaler._multiplier := 1%float |} [] (Ok tt).
Proof.
  split; [| split; vm_compute; reflexivity].
  intros self eps Hunset Hne.
  destruct (np_min_spec _ Hne) as (lo & Hlo & Hmin).
  destruct (np_max_spec _ Hne) as (hi & Hhi & Hmax).
  exists lo, hi. split; [| split; assumption].
  now apply min_max_fit_unset.
Qed.

Lemma min_max_fit_sample_extrema_witness :
  exists lo hi,
    MinMaxRewardScaler.fit
      {| MinMaxRewardScaler._minimum := None; MinMaxRewardScaler._maximum := None;
         MinMaxRewardScaler._multiplier := 1%Q |} corpus_Q
    = Effect {| MinMaxRewardScaler._minimum := Some lo;
                MinMaxRewardScaler._maximum := Some hi;
                MinMaxRewardScaler._multiplier := 1%Q |} [] (Ok tt)
    /\ is_minimum lo (non_first_rewards corpus_Q)
    /\ is_maximum hi (non_first_rewards corpus_Q).
Proof.
  apply (proj1 min_max_fit_sample_extrema
           {| MinMaxRewardScaler._minimum := None;
              MinMaxRewardScaler._maximum := None;
              MinMaxRewardScaler._multiplier := 1%Q |} corpus_Q).
  - reflexivity.
  - vm_compute. discriminate.
Defined.

(** On an empty sequence of non-first rewards [np.min] raises and the scaler
    is left as it was. *)
Lemma min_max_fit_no_rewards {T} `{Scalar T} (self : MinMaxRewardScaler.t T)
    (eps : list (Episode T)) :
  is_not_None (MinMaxRewardScaler._minimum self)
    && is_not_None (MinMaxRewardScaler._maximum self) = false ->
  non_first_rewards eps = [] ->
  MinMaxRewardScaler.fit self eps = Effect self [] (Raise ValueError).
Proof.
  intros Hunset Hnil. unfold MinMaxRewardScaler.fit.
  rewrite Hunset, collect_rewards_concat, Hnil. reflexivity.
Qed.

(** ** The registry *)

Section RegistryFacts.
Context {T : Type} `{Scalar T} `{Sqrt T}.

Lemma registered_true (name : string) (reg : gmap string (scaler_class T)) :
  is_Some (reg !! name) -> registered name reg = true.
Proof. intros Hin. unfold registered. now apply bool_decide_eq_true_2. Qed.

Lemma registered_false (name : string) (reg : gmap string (scaler_class T)) :
  reg !! name = None -> registered name reg = false.
Proof.
  intros Hnone. unfold registered. apply bool_decide_eq_false_2.
  rewrite Hnone. apply is_Some_None.
Qed.

Lemma create_unregistered (name : string) (kwargs : list (string * pyval T))
    (reg : gmap string (scaler_class T)) :
  reg !! name = None ->
  create_reward_scaler name kwargs reg
  = Raise (AssertionError (String.append name " seems not to be registered.")).
Proof.
  intros Hnone. unfold create_reward_scaler.
  now rewrite (registered_false _ _ Hnone).
Qed.

Lemma create_registered (name : string) (kwargs : list (string * pyval T))
    (reg : gmap string (scaler_class T)) (cls : scaler_class T) :
  reg !! name = Some cls ->
  create_reward_scaler name kwargs reg = cls_call cls kwargs.
Proof.
  intros Hcls. unfold create_reward_scaler.
  rewrite registered_true by (rewrite Hcls; eauto).
  simpl. now rewrite Hcls.
Qed.

Lemma register_taken (cls : scaler_class T) (reg : gmap string (scaler_class T)) :
  is_Some (reg !! cls_TYPE cls) ->
  register_reward_scaler cls reg
  = Effect reg []
      (Raise (AssertionError
                (String.append (cls_TYPE cls) " seems to be already registered"))).
Proof.
  intros Hin. unfold register_reward_scaler.
  now rewrite (registered_true _ _ Hin).
Qed.

Lemma register_fresh (cls : scaler_class T) (reg : gmap string (scaler_class T)) :
  reg !! cls_TYPE cls = None ->
  register_reward_scaler cls reg = Effect (<[cls_TYPE cls := cls]> reg) [] (Ok tt).
Proof.
  intros Hnone. unfold register_reward_scaler.
  now rewrite (registered_false _ _ Hnone).
Qed.

Lemma module_init_registry :
  module_init
  = Effect (<[StandardRewardScaler.TYPE := StandardRewardScaler_class]>
              (<[MinMaxRewardScaler.TYPE := MinMaxRewardScaler_class]>
                 (<[ClipRewardScaler.TYPE := ClipRewardScaler_class]>
                    (<[MultiplyRewardScaler.TYPE := MultiplyRewardScaler_class]> ∅))))
      [] (Ok tt).
Proof. reflexivity. Qed.
End RegistryFacts.

(** C3, as amended. The module body ends without an error and leaves exactly
    the identifiers "multiply", "clip", "min_max" and "standard" in the
    registry; "none", the identifier of the base class, is not among them.
    [create_reward_scaler] without keyword arguments succeeds for each of the
    four, and for a name that is not registered it fails with an assertion
    error, whatever the keyword arguments. *)
Theorem registry_after_module_init {T : Type} `{Scalar T} `{Sqrt T} :
  outcome (module_init (T := T)) = Ok tt
  /\ dom (REWARD_SCALER_LIST (T := T))
     = ({["multiply"; "clip"; "min_max"; "standard"]} : gset string)
  /\ REWARD_SCALER_LIST (T := T) !! "none" = None
  /\ create_reward_scaler "multiply" [] REWARD_SCALER_LIST
     = Ok (Multiply {| MultiplyRewardScaler._multiplier := None |})
  /\ create_reward_scaler "clip" [] REWARD_SCALER_LIST
     = Ok (Clip {| ClipRewardScaler._low := None; ClipRewardScaler._high := None;
                   ClipRewardScaler._multiplier := lit_1_0 |})
  /\ create_reward_scaler "min_max" [] REWARD_SCALER_LIST
     = Ok (MinMax {| MinMaxRewardScaler._minimum := None;
                     MinMaxRewardScaler._maximum := None;
                     MinMaxRewardScaler._multiplier := lit_1_0 |})
  /\ create_reward_scaler "standard" [] REWARD_SCALER_LIST
     = Ok (Standard {| StandardRewardScaler._mean := None;
                       StandardRewardScaler._std := None;
                       StandardRewardScaler._eps := lit_1em3;
                       StandardRewardScaler._multiplier := lit_1_0 |})
  /\ (forall (name : string) (kwargs : list (string * pyval T)),
        REWARD_SCALER_LIST (T := T) !! name = None ->
        create_reward_scaler name kwargs REWARD_SCALER_LIST
        = Raise (AssertionError
                   (String.append name " seems not to be registered."))).
Proof.
  split; [reflexivity |].
  split; [vm_compute; reflexivity |].
  split; [reflexivity |].
  repeat (split; [reflexivity |]).
  intros name kwargs Hnone. now apply create_unregistered.
Qed.

Lemma registry_after_module_init_witness :
  REWARD_SCALER_LIST (T := float) !! "unknown_name" = None
  /\ create_reward_scaler "unknown_name" [] (REWARD_SCALER_LIST (T := float))
     = Raise (AssertionError "unknown_name seems not to be registered.").
Proof.
  split; [reflexivity |].
  apply (proj2 (proj2 (proj2 (proj2 (proj2 (proj2 (proj2
           (registry_after_module_init (T := float)))))))) "unknown_name" []).
  reflexivity.
Defined.

(** C3, as stated, fails: after the module body "none" is not a key of the
    registry and creating it raises the assertion error. *)
Lemma none_is_not_registered :
  REWARD_SCALER_LIST (T := float) !! "none" = None
  /\ create_reward_scaler "none" [] (REWARD_SCALER_LIST (T := float))
     = Raise (AssertionError "none seems not to be registered.").
Proof. split; reflexivity. Qed.

(** Registry property 7 of the spec: creating "min_max" with minimum 0 and
    maximum 1 gives the parameters minimum 0, maximum 1, multiplier 1. *)
Lemma create_min_max_params :
  create_reward_scaler "min_max"
    [("minimum", PyFloat 0%float); ("maximum", PyFloat 1%float)]
    (REWARD_SCALER_LIST (T := float))
  ≫= get_params
  = Ok [("minimum", Some 0%float); ("maximum", Some 1%float);
        ("multiplier", Some 1%float)].
Proof. vm_compute. reflexivity. Qed.

(** C9. Registering a class whose identifier is already a key raises an
    assertion error and leaves the registry as it was; registering a class
    whose identifier is not yet a key succeeds and adds that one entry: the
    new key maps to the class, every other key maps to what it did, and the
    size grows by one. In both cases every entry present before the call is
    still there, unchanged, after it. *)
Theorem register_rejects_duplicates {T : Type} `{Scalar T} `{Sqrt T}
    (cls : scaler_class T) (reg : gmap string (scaler_class T)) :
  (is_Some (reg !! cls_TYPE cls) ->
   register_reward_scaler cls reg
   = Effect reg []
       (Raise (AssertionError
                 (String.append (cls_TYPE cls) " seems to be already registered"))))
  /\ (reg !! cls_TYPE cls = None ->
      outcome (register_reward_scaler cls reg) = Ok tt
      /\ obj (register_reward_scaler cls reg) !! cls_TYPE cls = Some cls
      /\ (forall name, name <> cls_TYPE cls ->
            obj (register_reward_scaler cls reg) !! name = reg !! name)
      /\ dom (obj (register_reward_scaler cls reg)) = {[cls_TYPE cls]} ∪ dom reg
      /\ size (obj (register_reward_scaler cls reg)) = S (size reg))
  /\ (forall name old, reg !! name = Some old ->
        obj (register_reward_scaler cls reg) !! name = Some old).
Proof.
  split; [apply register_taken |]. split.
  - intros Hnone. rewrite (register_fresh _ _ Hnone). simpl.
    split; [reflexivity |].
    split; [apply lookup_insert_eq |].
    split; [intros name Hne; apply lookup_insert_ne; congruence |].
    split; [apply dom_insert_L | now apply map_size_insert_None].
  - intros name old Hold.
    destruct (reg !! cls_TYPE cls) as [c|] eqn:Hcls.
    + rewrite register_taken by (rewrite Hcls; eauto). exact Hold.
    + rewrite (register_fresh _ _ Hcls). simpl.
      rewrite lookup_insert_ne; [exact Hold | congruence].
Qed.

Lemma register_rejects_duplicates_witness :
  (is_Some (REWARD_SCALER_LIST (T := float) !! "min_max")
   /\ register_reward_scaler MinMaxRewardScaler_class
        (REWARD_SCALER_LIST (T := float))
      = Effect REWARD_SCALER_LIST []
          (Raise (AssertionError "min_max seems to be already registered")))
  /\ (REWARD_SCALER_LIST (T := float) !! "none" = None
      /\ outcome (register_reward_scaler RewardScaler_class
                    (REWARD_SCALER_LIST (T := float))) = Ok tt
      /\ size (obj (register_reward_scaler RewardScaler_class
                      (REWARD_SCALER_LIST (T := float))))
         = S (size (REWARD_SCALER_LIST (T := float))))
  /\ (REWARD_SCALER_LIST (T := float) !! "clip" = Some ClipRewardScaler_class
      /\ obj (register_reward_scaler RewardScaler_class
                (REWARD_SCALER_LIST (T := float))) !! "clip"
         = Some ClipRewardScaler_class).
Proof.
  assert (Hin : is_Some (REWARD_SCALER_LIST (T := float) !! "min_max"))
    by (eexists; reflexivity).
  assert (Hnone : REWARD_SCALER_LIST (T := float) !! "none" = None)
    by reflexivity.
  assert (Hclip : REWARD_SCALER_LIST (T := float) !! "clip"
                  = Some ClipRewardScaler_class) by reflexivity.
  split; [split; [exact Hin |] | split; [split; [exact Hnone |] | split; [exact Hclip |]]].
  - exact (proj1 (register_rejects_duplicates MinMaxRewardScaler_class
                    REWARD_SCALER_LIST) Hin).
  - destruct (proj1 (proj2 (register_rejects_duplicates RewardScaler_class
                              REWARD_SCALER_LIST)) Hnone)
      as (Hout & _ & _ & _ & Hsize).
    split; [exact Hout | exact Hsize].
  - exact (proj2 (proj2 (register_rejects_duplicates RewardScaler_class
                           REWARD_SCALER_LIST)) "clip" ClipRewardScaler_class Hclip).
Defined.

(** ** Fit, once the parameters are present *)

Section FitFacts.
Context {T : Type} `{Scalar T} `{Sqrt T}.

Lemma multiply_fit_keeps (self : MultiplyRewardScaler.t T) (eps : list (Episode T)) :
  obj (MultiplyRewardScaler.fit self eps) = self
  /\ outcome (MultiplyRewardScaler.fit self eps) = Ok tt.
Proof.
  unfold MultiplyRewardScaler.fit.
  destruct (negb (is_not_None (MultiplyRewardScaler._multiplier self))); auto.
Qed.

Lemma clip_fit_keeps (self : ClipRewardScaler.t T) (eps : list (Episode T)) :
  obj (ClipRewardScaler.fit self eps) = self
  /\ outcome (ClipRewardScaler.fit self eps) = Ok tt.
Proof.
  unfold ClipRewardScaler.fit.
  destruct (negb (is_not_None (ClipRewardScaler._low self))
            && negb (is_not_None (ClipRewardScaler._high self))); auto.
Qed.

Lemma is_not_None_Some {A} (x : option A) : is_Some x -> is_not_None x = true.
Proof. intros [a ->]. reflexivity. Qed.

Lemma is_not_None_true {A} (x : option A) : is_not_None x = true -> is_Some x.
Proof. destruct x; [eauto | discriminate]. Qed.

Lemma min_max_fit_present (self : MinMaxRewardScaler.t T) (eps : list (Episode T)) :
  is_Some (MinMaxRewardScaler._minimum self) ->
  is_Some (MinMaxRewardScaler._maximum self) ->
  MinMaxRewardScaler.fit self eps = Effect self [] (Ok tt).
Proof.
  intros Hlo Hhi. unfold MinMaxRewardScaler.fit.
  now rewrite (is_not_None_Some _ Hlo), (is_not_None_Some _ Hhi).
Qed.

Lemma standard_fit_present (self : StandardRewardScaler.t T) (eps : list (Episode T)) :
  is_Some (StandardRewardScaler._mean self) ->
  is_Some (StandardRewardScaler._std self) ->
  StandardRewardScaler.fit self eps = Effect self [] (Ok tt).
Proof.
  intros Hmu Hsd. unfold StandardRewardScaler.fit.
  now rewrite (is_not_None_Some _ Hmu), (is_not_None_Some _ Hsd).
Qed.

(** A [fit] that returns normally leaves both statistics set. *)
Lemma min_max_fit_sets_both (self : MinMaxRewardScaler.t T) (eps : list (Episode T)) :
  outcome (MinMaxRewardScaler.fit self eps) = Ok tt ->
  is_Some (MinMaxRewardScaler._minimum (obj (MinMaxRewardScaler.fit self eps)))
  /\ is_Some (MinMaxRewardScaler._maximum (obj (MinMaxRewardScaler.fit self eps))).
Proof.
  unfold MinMaxRewardScaler.fit.
  destruct (is_not_None (MinMaxRewardScaler._minimum self)
            && is_not_None (MinMaxRewardScaler._maximum self)) eqn:Hset.
  - intros _. apply andb_true_iff in Hset as [Hlo Hhi].
    split; now apply is_not_None_true.
  - destruct (np_min (collect_rewards eps)) as [lo|e]; [| discriminate].
    destruct (np_max (collect_rewards eps)) as [hi|e]; [| discriminate].
    intros _. simpl. eauto.
Qed.

Lemma standard_fit_sets_both (self : StandardRewardScaler.t T) (eps : list (Episode T)) :
  outcome (StandardRewardScaler.fit self eps) = Ok tt
  /\ is_Some (StandardRewardScaler._mean (obj (StandardRewardScaler.fit self eps)))
  /\ is_Some (StandardRewardScaler._std (obj (StandardRewardScaler.fit self eps))).
Proof.
  unfold StandardRewardScaler.fit.
  destruct (is_not_None (StandardRewardScaler._mean self)
            && is_not_None (StandardRewardScaler._std self)) eqn:Hset.
  - apply andb_true_iff in Hset as [Hmu Hsd].
    repeat split; now apply is_not_None_true.
  - simpl. eauto.
Qed.
End FitFacts.

(** C4. [fit] on an instance whose parameters are present changes nothing:
    Multiply and Clip never change the instance; Min-Max with minimum and
    maximum set, and Standardize with mean and std set, return at once with
    the instance as it was, whether the parameters came from the constructor
    or from an earlier [fit] that returned normally. *)
Theorem fit_is_noop_when_fitted {T : Type} `{Scalar T} `{Sqrt T}
    (eps eps' : list (Episode T)) :
  (forall self : MultiplyRewardScaler.t T,
      obj (MultiplyRewardScaler.fit self eps) = self)
  /\ (forall self : ClipRewardScaler.t T,
      obj (ClipRewardScaler.fit self eps) = self)
  /\ (forall self : MinMaxRewardScaler.t T,
      is_Some (MinMaxRewardScaler._minimum self) ->
      is_Some (MinMaxRewardScaler._maximum self) ->
      MinMaxRewardScaler.fit self eps = Effect self [] (Ok tt))
  /\ (forall self : StandardRewardScaler.t T,
      is_Some (StandardRewardScaler._mean self) ->
      is_Some (StandardRewardScaler._std self) ->
      StandardRewardScaler.fit self eps = Effect self [] (Ok tt))
  /\ (forall (minimum maximum multiplier : T) (self : MinMaxRewardScaler.t T),
      MinMaxRewardScaler.__init__ None (Some minimum) (Some maximum) multiplier
      = Ok self ->
      MinMaxRewardScaler.fit self eps = Effect self [] (Ok tt))
  /\ (forall (mean std eps0 multiplier : T) (self : StandardRewardScaler.t T),
      StandardRewardScaler.__init__ None (Some mean) (Some std) eps0 multiplier
      = Ok self ->
      StandardRewardScaler.fit self eps = Effect self [] (Ok tt))
  /\ (forall self : MinMaxRewardScaler.t T,
      outcome (MinMaxRewardScaler.fit self eps) = Ok tt ->
      MinMaxRewardScaler.fit (obj (MinMaxRewardScaler.fit self eps)) eps'
      = Effect (obj (MinMaxRewardScaler.fit self eps)) [] (Ok tt))
  /\ (forall self : StandardRewardScaler.t T,
      StandardRewardScaler.fit (obj (StandardRewardScaler.fit self eps)) eps'
      = Effect (obj (StandardRewardScaler.fit self eps)) [] (Ok tt)).
Proof.
  split; [intros self; apply multiply_fit_keeps |].
  split; [intros self; apply clip_fit_keeps |].
  split; [intros self; apply min_max_fit_present |].
  split; [intros self; apply standard_fit_present |].
  split.
  { intros minimum maximum multiplier self Hinit.
    injection Hinit as <-. apply min_max_fit_present; simpl; eauto. }
  split.
  { intros mean std eps0 multiplier self Hinit.
    injection Hinit as <-. apply standard_fit_present; simpl; eauto. }
  split.
  - intros self Hok. destruct (min_max_fit_sets_both self eps Hok).
    now apply min_max_fit_present.
  - intros self. destruct (standard_fit_sets_both self eps) as (_ & Hmu & Hsd).
    now apply standard_fit_present.
Qed.

Lemma fit_is_noop_when_fitted_witness :
  (is_Some (MinMaxRewardScaler._minimum min_max_0_22)
   /\ is_Some (MinMaxRewardScaler._maximum min_max_0_22)
   /\ MinMaxRewardScaler.fit min_max_0_22 corpus_float
      = Effect min_max_0_22 [] (Ok tt))
  /\ (is_Some (StandardRewardScaler._mean standard_0_6_1)
      /\ is_Some (StandardRewardScaler._std standard_0_6_1)
      /\ StandardRewardScaler.fit standard_0_6_1 corpus_float
         = Effect standard_0_6_1 [] (Ok tt))
  /\ (MinMaxRewardScaler.__init__ None (Some 0%float) (Some 22%float) 1%float
      = Ok min_max_0_22
      /\ MinMaxRewardScaler.fit min_max_0_22 corpus_float
         = Effect min_max_0_22 [] (Ok tt))
  /\ (outcome (MinMaxRewardScaler.fit
                 {| MinMaxRewardScaler._minimum := None;
                    MinMaxRewardScaler._maximum := None;
                    MinMaxRewardScaler._multiplier := 1%float |} corpus_float)
      = Ok tt
      /\ MinMaxRewardScaler.fit
           (obj (MinMaxRewardScaler.fit
                   {| MinMaxRewardScaler._minimum := None;
                      MinMaxRewardScaler._maximum := None;
                      MinMaxRewardScaler._multiplier := 1%float |} corpus_float))
           []
         = Effect
             (obj (MinMaxRewardScaler.fit
                     {| MinMaxRewardScaler._minimum := None;
                        MinMaxRewardScaler._maximum := None;
                        MinMaxRewardScaler._multiplier := 1%float |} corpus_float))
             [] (Ok tt)).
Proof.
  pose proof (fit_is_noop_when_fitted (T := float) corpus_float [])
    as (_ & _ & Hmm & Hst & Hinit & _ & Hagain & _).
  assert (Hlo : is_Some (MinMaxRewardScaler._minimum min_max_0_22))
    by (eexists; reflexivity).
  assert (Hhi : is_Some (MinMaxRewardScaler._maximum min_max_0_22))
    by (eexists; reflexivity).
  assert (Hmu : is_Some (StandardRewardScaler._mean standard_0_6_1))
    by (eexists; reflexivity).
  assert (Hsd : is_Some (StandardRewardScaler._std standard_0_6_1))
    by (eexists; reflexivity).
  split; [split; [exact Hlo | split; [exact Hhi | exact (Hmm _ Hlo Hhi)]] |].
  split; [split; [exact Hmu | split; [exact Hsd | exact (Hst _ Hmu Hsd)]] |].
  split.
  - split; [reflexivity |].
    exact (Hinit 0%float 22%float 1%float min_max_0_22 eq_refl).
  - split; [vm_compute; reflexivity |].
    apply Hagain. vm_compute. reflexivity.
Defined.

(** ** The assertion guarding the transforms *)

(** C5. For Min-Max and Standardize, [transform], [reverse_transform] and
    [transform_numpy] called while one of the two statistics is unset raise an
    assertion error; with both set, the assertion passes and each of them
    returns a batch. *)
Theorem transform_asserts_parameters {T : Type} `{Scalar T} (reward : list T) :
  (forall self : MinMaxRewardScaler.t T,
      MinMaxRewardScaler._minimum self = None
      \/ MinMaxRewardScaler._maximum self = None ->
      MinMaxRewardScaler.transform self reward = Raise (AssertionError "")
      /\ MinMaxRewardScaler.reverse_transform self reward = Raise (AssertionError "")
      /\ MinMaxRewardScaler.transform_numpy self reward = Raise (AssertionError ""))
  /\ (forall self : MinMaxRewardScaler.t T,
      is_Some (MinMaxRewardScaler._minimum self) ->
      is_Some (MinMaxRewardScaler._maximum self) ->
      is_ok (MinMaxRewardScaler.transform self reward) = true
      /\ is_ok (MinMaxRewardScaler.reverse_transform self reward) = true
      /\ is_ok (MinMaxRewardScaler.transform_numpy self reward) = true)
  /\ (forall self : StandardRewardScaler.t T,
      StandardRewardScaler._mean self = None
      \/ StandardRewardScaler._std self = None ->
      StandardRewardScaler.transform self reward = Raise (AssertionError "")
      /\ StandardRewardScaler.reverse_transform self reward = Raise (AssertionError "")
      /\ StandardRewardScaler.transform_numpy self reward = Raise (AssertionError ""))
  /\ (forall self : StandardRewardScaler.t T,
      is_Some (StandardRewardScaler._mean self) ->
      is_Some (StandardRewardScaler._std self) ->
      is_ok (StandardRewardScaler.transform self reward) = true
      /\ is_ok (StandardRewardScaler.reverse_transform self reward) = true
      /\ is_ok (StandardRewardScaler.transform_numpy self reward) = true).
Proof.
  split; [| split; [| split]].
  - intros [lo hi m] [Hnone | Hnone]; simpl in Hnone; subst;
      unfold MinMaxRewardScaler.transform, MinMaxRewardScaler.reverse_transform,
        MinMaxRewardScaler.transform_numpy; simpl;
      try destruct lo; auto.
  - intros [lo hi m] [a Ha] [b Hb]; simpl in Ha, Hb; subst.
    repeat split.
  - intros [mu sd e m] [Hnone | Hnone]; simpl in Hnone; subst;
      unfold StandardRewardScaler.transform, StandardRewardScaler.reverse_transform,
        StandardRewardScaler.transform_numpy; simpl;
      try destruct mu; auto.
  - intros [mu sd e m] [a Ha] [b Hb]; simpl in Ha, Hb; subst.
    repeat split.
Qed.

Lemma transform_asserts_parameters_witness :
  (MinMaxRewardScaler.transform
     {| MinMaxRewardScaler._minimum := None; MinMaxRewardScaler._maximum := None;
        MinMaxRewardScaler._multiplier := 1%float |} [5%float]
   = Raise (AssertionError ""))
  /\ is_ok (MinMaxRewardScaler.transform min_max_0_22 [5%float]) = true
  /\ (StandardRewardScaler.transform
        {| StandardRewardScaler._mean := None; StandardRewardScaler._std := None;
           StandardRewardScaler._eps := 1%float;
           StandardRewardScaler._multiplier := 1%float |} [5%float]
      = Raise (AssertionError ""))
  /\ is_ok (StandardRewardScaler.transform standard_0_6_1 [5%float]) = true.
Proof.
  pose proof (transform_asserts_parameters (T := float) [5%float])
    as (Hmm_unset & Hmm_set & Hst_unset & Hst_set).
  split; [| split; [| split]].
  - apply Hmm_unset. left. reflexivity.
  - apply Hmm_set; eexists; reflexivity.
  - apply Hst_unset. left. reflexivity.
  - apply Hst_set; eexists; reflexivity.
Defined.

(** ** Clip *)

Section ClampFacts.
Open Scope Q_scope.

Lemma clamp_below (low high r : Q) :
  low <= high -> r < low -> clamp (Some low) (Some high) r == low.
Proof.
  intros Hlh Hr. simpl.
  rewrite (Q.max_r r low) by now apply Qlt_le_weak.
  now apply Q.min_l.
Qed.

Lemma clamp_above (low high r : Q) :
  low <= high -> high < r -> clamp (Some low) (Some high) r == high.
Proof.
  intros Hlh Hr. simpl.
  assert (Hlr : low <= r)
    by (apply Qlt_le_weak; eapply Qle_lt_trans; [exact Hlh | exact Hr]).
  rewrite (Q.max_l r low) by exact Hlr.
  apply Q.min_r. now apply Qlt_le_weak.
Qed.

Lemma clamp_inside (low high r : Q) :
  low <= r -> r <= high -> clamp (Some low) (Some high) r == r.
Proof.
  intros Hlo Hhi. simpl.
  rewrite (Q.max_l r low) by exact Hlo.
  now apply Q.min_l.
Qed.

(** Over the rationals the clamp of torch and the clamp of numpy are the same
    function. *)
Lemma torch_clamp_Q (low high : option Q) (r : Q) :
  torch_clamp low high r = clamp low high r.
Proof.
  unfold torch_clamp, clamp. simpl.
  assert (Hlow : match low with
                 | Some l => if match r ?= l with Lt => true | _ => false end
                             then l else r
                 | None => r
                 end
                 = match low with Some l => Qmax r l | None => r end).
  { destruct low as [l|]; [| reflexivity].
    unfold Qmax, GenericMinMax.gmax. destruct (r ?= l); reflexivity. }
  rewrite Hlow. destruct high as [h|]; [| reflexivity].
  set (y := match low with Some l => Qmax r l | None => r end).
  unfold Qmin, GenericMinMax.gmin.
  rewrite <- (Qcompare_antisym y h). destruct (y ?= h); reflexivity.
Qed.

Lemma torch_clamp_is_clamp (low high : option Q) (r : Q) :
  (forall l h, low = Some l -> high = Some h -> l <= h) ->
  is_clamp_of low high r (torch_clamp low high r).
Proof.
  intros Hlh. rewrite torch_clamp_Q. unfold is_clamp_of.
  destruct low as [l|], high as [h|]; simpl.
  - specialize (Hlh l h eq_refl eq_refl). split; [| split].
    + intros l' [= <-] Hr. now apply clamp_below.
    + intros h' [= <-] Hr. now apply clamp_above.
    + intros Hlo Hhi. apply clamp_inside; [now apply Hlo | now apply Hhi].
  - split; [| split].
    + intros l' [= <-] Hr. apply Q.max_r. now apply Qlt_le_weak.
    + intros h' [=].
    + intros Hlo _. apply Q.max_l. now apply Hlo.
  - split; [| split].
    + intros l' [=].
    + intros h' [= <-] Hr. apply Q.min_r. now apply Qlt_le_weak.
    + intros _ Hhi. apply Q.min_l. now apply Hhi.
  - split; [| split]; [intros l' [=] | intros h' [=] | reflexivity].
Qed.

Lemma clip_transform_bounds_present {T} `{Scalar T} (low high : option T) (m : T)
    (reward : list T) :
  is_Some low \/ is_Some high ->
  ClipRewardScaler.transform (clip_with low high m) reward
  = Ok (List.map (fun r => s_mul m (torch_clamp low high r)) reward).
Proof.
  intros Hbound. unfold ClipRewardScaler.transform, tensor_clamp, scalar_mul.
  simpl. destruct low, high; simpl; try (now rewrite List.map_map).
  destruct Hbound as [[x Hx] | [x Hx]]; discriminate.
Qed.


Lemma clip_transform_no_bound {T} `{Scalar T} (m : T) (reward : list T) :
  ClipRewardScaler.transform (clip_with None None m) reward
  = Raise (RuntimeError
             "torch.clamp: At least one of 'min' or 'max' must not be None").
Proof. reflexivity. Qed.
End ClampFacts.

(** C6. For Clip with at least one of the bounds [low], [high] set and
    multiplier [m], [transform] maps every reward [r] to
    [m * clamp(r, low, high)] and [reverse_transform] maps [r] to [r / m]
    without touching the bounds. In exact arithmetic (with [low <= high] when
    both are set) the clamp is the lower bound below it, the upper bound above
    it and the reward itself within the bounds that are set. With low -1, high
    1 and multiplier 2 the rewards 5, -5 and 0.5 are transformed to 2, -2 and
    1, in exact arithmetic and in binary64. *)
Theorem clip_transform_formula :
  (forall (T : Type) (S : Scalar T) (low high : option T) (m : T) (reward : list T),
      is_Some low \/ is_Some high ->
      ClipRewardScaler.transform (clip_with low high m) reward
      = Ok (List.map (fun r => s_mul m (torch_clamp low high r)) reward))
  /\ (forall (T : Type) (S : Scalar T) (low high : option T) (m : T)
             (reward : list T),
      ClipRewardScaler.reverse_transform (clip_with low high m) reward
      = Ok (List.map (fun r => s_div r m) reward))
  /\ (forall (low high : option Q) (r : Q),
      (forall l h, low = Some l -> high = Some h -> (l <= h)%Q) ->
      is_clamp_of low high r (torch_clamp low high r))
  /\ (exists out,
      ClipRewardScaler.transform (clip_with (Some (-1)%Q) (Some 1%Q) 2%Q)
        [5%Q; (-5)%Q; (1 # 2)%Q] = Ok out
      /\ batch_eq out [2%Q; (-2)%Q; 1%Q])
  /\ ClipRewardScaler.transform
       (clip_with (Some (-1)%float) (Some 1%float) 2%float)
       [5%float; (-5)%float; 0.5%float]
     = Ok [2%float; (-2)%float; 1%float].
Proof.
  split; [| split; [| split; [| split]]].
  - intros T S low high m reward. apply clip_transform_bounds_present.
  - reflexivity.
  - apply torch_clamp_is_clamp.
  - eexists. split; [vm_compute; reflexivity |].
    repeat constructor.
  - vm_compute. reflexivity.
Qed.

Lemma clip_transform_formula_witness :
  ((-1 <= 1)%Q /\ (1 < 5)%Q /\ (-5 < -1)%Q /\ (-1 <= 1 # 2)%Q /\ (1 # 2 <= 1)%Q)
  /\ (is_Some (Some (-1)%Q) \/ is_Some (@None Q))
  /\ ClipRewardScaler.transform (clip_with (Some (-1)%Q) None 2%Q) [(-5)%Q; 7%Q]
     = Ok (List.map (fun r => (2 * torch_clamp (Some (-1)) None r)%Q) [(-5)%Q; 7%Q])
  /\ (torch_clamp (Some (-1)%Q) (Some 1%Q) 5 == 1)%Q
  /\ (torch_clamp (Some (-1)%Q) (Some 1%Q) (-5) == -1)%Q
  /\ (torch_clamp (Some (-1)%Q) (Some 1%Q) (1 # 2) == 1 # 2)%Q
  /\ (torch_clamp (Some (-1)%Q) None (-5) == -1)%Q
  /\ (torch_clamp (Some (-1)%Q) None 7 == 7)%Q
  /\ (torch_clamp None (Some 1%Q) 5 == 1)%Q
  /\ (torch_clamp None (Some 1%Q) (-5) == -5)%Q.
Proof.
  assert (Hlh : (-1 <= 1)%Q) by (vm_compute; discriminate).
  assert (H5 : (1 < 5)%Q) by reflexivity.
  assert (Hm5 : (-5 < -1)%Q) by reflexivity.
  assert (Hin1 : (-1 <= 1 # 2)%Q) by (vm_compute; discriminate).
  assert (Hin2 : (1 # 2 <= 1)%Q) by (vm_compute; discriminate).
  assert (Hbound : is_Some (Some (-1)%Q) \/ is_Some (@None Q))
    by (left; eexists; reflexivity).
  destruct clip_transform_formula as (Hform & _ & Hclamp & _).
  split; [now repeat split |].
  split; [exact Hbound |].
  split; [exact (Hform Q Q_scalar (Some (-1)%Q) None 2%Q [(-5)%Q; 7%Q] Hbound) |].
  assert (Hboth : forall l h : Q, Some (-1)%Q = Some l -> Some 1%Q = Some h ->
                                  (l <= h)%Q)
    by (intros l h [= <-] [= <-]; exact Hlh).
  assert (Hlow : forall l h : Q, Some (-1)%Q = Some l -> @None Q = Some h ->
                                 (l <= h)%Q) by (intros l h _ [=]).
  assert (Hhigh : forall l h : Q, @None Q = Some l -> Some 1%Q = Some h ->
                                  (l <= h)%Q) by (intros l h [=]).
  split; [exact (proj1 (proj2 (Hclamp _ _ 5%Q Hboth)) 1%Q eq_refl H5) |].
  split; [exact (proj1 (Hclamp _ _ (-5)%Q Hboth) (-1)%Q eq_refl Hm5) |].
  split.
  { apply (proj2 (proj2 (Hclamp _ _ (1 # 2)%Q Hboth))).
    - intros l [= <-]. exact Hin1.
    - intros h [= <-]. exact Hin2. }
  split; [exact (proj1 (Hclamp _ _ (-5)%Q Hlow) (-1)%Q eq_refl Hm5) |].
  split.
  { apply (proj2 (proj2 (Hclamp _ _ 7%Q Hlow))).
    - intros l [= <-]. vm_compute. discriminate.
    - intros h [=]. }
  split; [exact (proj1 (proj2 (Hclamp _ _ 5%Q Hhigh)) 1%Q eq_refl H5) |].
  apply (proj2 (proj2 (Hclamp _ _ (-5)%Q Hhigh))).
  - intros l [=].
  - intros h [= <-]. vm_compute. discriminate.
Defined.

(** ** Tensor and array entry points *)




(** In binary64 the two entry points of Clip also differ on the sign of a
    zero: with bounds 0 and 1, torch leaves the reward -0.0 as it is, and the
    clip loop of numpy replaces it by the bound +0.0. *)
Lemma clip_entry_points_differ_on_signed_zero :
  ClipRewardScaler.transform (clip_with (Some 0%float) (Some 1%float) 1%float)
    [(-0)%float]
  = Ok [(-0)%float]
  /\ ClipRewardScaler.transform_numpy (numpy := numpy_clip_passes)
       (clip_with (Some 0%float) (Some 1%float) 1%float) [(-0)%float]
     = Ok [0%float]
  /\ PrimFloat.classify (-0)%float <> PrimFloat.classify 0%float.
Proof.
  split; [vm_compute; reflexivity |].
  split; [vm_compute; reflexivity |].
  vm_compute. discriminate.
Qed.

(** ** Fitting with an environment *)

(** C8. [fit_with_env] is the method of the base class for every scaler: on
    any scaler object and any environment it raises NotImplementedError with
    the message "Please initialize with dataset." and leaves the object, and
    so its parameters, as they were. *)
Theorem fit_with_env_unsupported {T Env : Type} (env : Env) :
  (forall self : scaler T,
      fit_with_env self env
      = Effect self []
          (Raise (NotImplementedError "Please initialize with dataset.")))
  /\ (forall self : MultiplyRewardScaler.t T,
      RewardScaler.fit_with_env self env
      = Effect self []
          (Raise (NotImplementedError "Please initialize with dataset.")))
  /\ (forall self : ClipRewardScaler.t T,
      RewardScaler.fit_with_env self env
      = Effect self []
          (Raise (NotImplementedError "Please initialize with dataset.")))
  /\ (forall self : MinMaxRewardScaler.t T,
      RewardScaler.fit_with_env self env
      = Effect self []
          (Raise (NotImplementedError "Please initialize with dataset.")))
  /\ (forall self : StandardRewardScaler.t T,
      RewardScaler.fit_with_env self env
      = Effect self []
          (Raise (NotImplementedError "Please initialize with dataset."))).
Proof. repeat split. Qed.

(** ** Both statistics or neither *)

Section Invariant.
Context {T : Type} `{Scalar T} `{Sqrt T}.

Lemma np_min_max_together (a : list T) (lo : T) :
  np_min a = Ok lo -> exists hi, np_max a = Ok hi.
Proof. destruct a; [discriminate | simpl; eauto]. Qed.

Lemma both_or_neither_None {A B} : both_or_neither (@None A) (@None B).
Proof. unfold both_or_neither. split; intros [x Hx]; discriminate. Qed.

Lemma both_or_neither_Some {A B} (a : A) (b : B) :
  both_or_neither (Some a) (Some b).
Proof. unfold both_or_neither. split; eauto. Qed.

Lemma min_max_fit_invariant (self : MinMaxRewardScaler.t T) (eps : list (Episode T)) :
  both_or_neither (MinMaxRewardScaler._minimum self)
    (MinMaxRewardScaler._maximum self) ->
  both_or_neither
    (MinMaxRewardScaler._minimum (obj (MinMaxRewardScaler.fit self eps)))
    (MinMaxRewardScaler._maximum (obj (MinMaxRewardScaler.fit self eps))).
Proof.
  intros Hinv. unfold MinMaxRewardScaler.fit.
  destruct (is_not_None (MinMaxRewardScaler._minimum self)
            && is_not_None (MinMaxRewardScaler._maximum self)); [exact Hinv |].
  destruct (np_min (collect_rewards eps)) as [lo|e] eqn:Hlo; [| exact Hinv].
  destruct (np_min_max_together _ _ Hlo) as [hi ->].
  simpl. apply both_or_neither_Some.
Qed.

Lemma standard_fit_invariant (self : StandardRewardScaler.t T)
    (eps : list (Episode T)) :
  both_or_neither (StandardRewardScaler._mean self)
    (StandardRewardScaler._std self) ->
  both_or_neither
    (StandardRewardScaler._mean (obj (StandardRewardScaler.fit self eps)))
    (StandardRewardScaler._std (obj (StandardRewardScaler.fit self eps))).
Proof.
  intros Hinv. unfold StandardRewardScaler.fit.
  destruct (is_not_None (StandardRewardScaler._mean self)
            && is_not_None (StandardRewardScaler._std self)); [exact Hinv |].
  simpl. apply both_or_neither_Some.
Qed.

Lemma min_max_init_invariant (dataset : option (MDPDataset T))
    (minimum maximum : option T) (multiplier : T) (self : MinMaxRewardScaler.t T) :
  MinMaxRewardScaler.__init__ dataset minimum maximum multiplier = Ok self ->
  both_or_neither (MinMaxRewardScaler._minimum self)
    (MinMaxRewardScaler._maximum self).
Proof.
  unfold MinMaxRewardScaler.__init__.
  destruct (match dataset with Some d => truthy d | None => false end).
  - set (fresh := {| MinMaxRewardScaler._minimum := None;
                     MinMaxRewardScaler._maximum := None;
                     MinMaxRewardScaler._multiplier := multiplier |}).
    set (eps := from_option episodes [] dataset).
    pose proof (min_max_fit_invariant fresh eps both_or_neither_None) as Hfit.
    destruct (outcome (MinMaxRewardScaler.fit fresh eps)); [| discriminate].
    simpl. intros [= <-]. exact Hfit.
  - destruct minimum as [lo|], maximum as [hi|]; simpl; intros [= <-]; simpl;
      first [apply both_or_neither_Some | apply both_or_neither_None].
Qed.

Lemma standard_init_invariant (dataset : option (MDPDataset T))
    (mean std : option T) (eps0 multiplier : T) (self : StandardRewardScaler.t T) :
  StandardRewardScaler.__init__ dataset mean std eps0 multiplier = Ok self ->
  both_or_neither (StandardRewardScaler._mean self)
    (StandardRewardScaler._std self).
Proof.
  unfold StandardRewardScaler.__init__.
  destruct (match dataset with Some d => truthy d | None => false end).
  - set (fresh := {| StandardRewardScaler._mean := None;
                     StandardRewardScaler._std := None;
                     StandardRewardScaler._eps := eps0;
                     StandardRewardScaler._multiplier := multiplier |}).
    set (eps := from_option episodes [] dataset).
    pose proof (standard_fit_invariant fresh eps both_or_neither_None) as Hfit.
    destruct (outcome (StandardRewardScaler.fit fresh eps)); [| discriminate].
    simpl. intros [= <-]. exact Hfit.
  - destruct mean as [mu|], std as [sd|]; simpl; intros [= <-]; simpl;
      first [apply both_or_neither_Some | apply both_or_neither_None].
Qed.
End Invariant.

(** C10. For Min-Max (minimum, maximum) and Standardize (mean, std) the two
    statistics are both set or both unset in every object the constructor
    returns, and [fit] keeps it so, also when it raises. A constructor call
    that supplies only one of the two (and no dataset) drops the supplied value
    and returns an object with both unset; on that object [transform] raises
    the assertion error and [fit] computes both statistics from the data. *)
Theorem statistics_both_or_neither {T : Type} `{Scalar T} `{Sqrt T} :
  (forall (dataset : option (MDPDataset T)) (minimum maximum : option T)
          (multiplier : T) (self : MinMaxRewardScaler.t T),
      MinMaxRewardScaler.__init__ dataset minimum maximum multiplier = Ok self ->
      both_or_neither (MinMaxRewardScaler._minimum self)
        (MinMaxRewardScaler._maximum self))
  /\ (forall (self : MinMaxRewardScaler.t T) (eps : list (Episode T)),
      both_or_neither (MinMaxRewardScaler._minimum self)
        (MinMaxRewardScaler._maximum self) ->
      both_or_neither
        (MinMaxRewardScaler._minimum (obj (MinMaxRewardScaler.fit self eps)))
        (MinMaxRewardScaler._maximum (obj (MinMaxRewardScaler.fit self eps))))
  /\ (forall (x multiplier : T),
      MinMaxRewardScaler.__init__ None (Some x) None multiplier
      = Ok {| MinMaxRewardScaler._minimum := None;
              MinMaxRewardScaler._maximum := None;
              MinMaxRewardScaler._multiplier := multiplier |}
      /\ MinMaxRewardScaler.__init__ None None (Some x) multiplier
         = Ok {| MinMaxRewardScaler._minimum := None;
                 MinMaxRewardScaler._maximum := None;
                 MinMaxRewardScaler._multiplier := multiplier |})
  /\ (forall (multiplier : T) (reward : list T),
      MinMaxRewardScaler.transform
        {| MinMaxRewardScaler._minimum := None;
           MinMaxRewardScaler._maximum := None;
           MinMaxRewardScaler._multiplier := multiplier |} reward
      = Raise (AssertionError ""))
  /\ (forall (multiplier : T) (eps : list (Episode T)) (lo hi : T),
      np_min (non_first_rewards eps) = Ok lo ->
      np_max (non_first_rewards eps) = Ok hi ->
      MinMaxRewardScaler.fit
        {| MinMaxRewardScaler._minimum := None;
           MinMaxRewardScaler._maximum := None;
           MinMaxRewardScaler._multiplier := multiplier |} eps
      = Effect {| MinMaxRewardScaler._minimum := Some lo;
                  MinMaxRewardScaler._maximum := Some hi;
                  MinMaxRewardScaler._multiplier := multiplier |} [] (Ok tt))
  /\ (forall (dataset : option (MDPDataset T)) (mean std : option T)
             (eps0 multiplier : T) (self : StandardRewardScaler.t T),
      StandardRewardScaler.__init__ dataset mean std eps0 multiplier = Ok self ->
      both_or_neither (StandardRewardScaler._mean self)
        (StandardRewardScaler._std self))
  /\ (forall (self : StandardRewardScaler.t T) (eps : list (Episode T)),
      both_or_neither (StandardRewardScaler._mean self)
        (StandardRewardScaler._std self) ->
      both_or_neither
        (StandardRewardScaler._mean (obj (StandardRewardScaler.fit self eps)))
        (StandardRewardScaler._std (obj (StandardRewardScaler.fit self eps))))
  /\ (forall (x eps0 multiplier : T),
      StandardRewardScaler.__init__ None (Some x) None eps0 multiplier
      = Ok {| StandardRewardScaler._mean := None;
              StandardRewardScaler._std := None;
              StandardRewardScaler._eps := eps0;
              StandardRewardScaler._multiplier := multiplier |}
      /\ StandardRewardScaler.__init__ None None (Some x) eps0 multiplier
         = Ok {| StandardRewardScaler._mean := None;
                 StandardRewardScaler._std := None;
                 StandardRewardScaler._eps := eps0;
                 StandardRewardScaler._multiplier := multiplier |})
  /\ (forall (eps0 multiplier : T) (reward : list T),
      StandardRewardScaler.transform
        {| StandardRewardScaler._mean := None;
           StandardRewardScaler._std := None;
           StandardRewardScaler._eps := eps0;
           StandardRewardScaler._multiplier := multiplier |} reward
      = Raise (AssertionError ""))
  /\ (forall (eps0 multiplier : T) (eps : list (Episode T)),
      StandardRewardScaler.fit
        {| StandardRewardScaler._mean := None;
           StandardRewardScaler._std := None;
           StandardRewardScaler._eps := eps0;
           StandardRewardScaler._multiplier := multiplier |} eps
      = Effect {| StandardRewardScaler._mean := Some (np_mean (non_first_rewards eps));
                  StandardRewardScaler._std := Some (np_std (non_first_rewards eps));
                  StandardRewardScaler._eps := eps0;
                  StandardRewardScaler._multiplier := multiplier |} [] (Ok tt)).
Proof.
  split; [apply min_max_init_invariant |].
  split; [apply min_max_fit_invariant |].
  split; [intros x multiplier; split; reflexivity |].
  split; [reflexivity |].
  split; [intros multiplier eps lo hi Hlo Hhi;
          now apply min_max_fit_unset |].
  split; [apply standard_init_invariant |].
  split; [apply standard_fit_invariant |].
  split; [intros x eps0 multiplier; split; reflexivity |].
  split; [reflexivity |].
  intros eps0 multiplier eps. unfold StandardRewardScaler.fit. simpl.
  now rewrite collect_rewards_concat.
Qed.

Lemma statistics_both_or_neither_witness :
  (MinMaxRewardScaler.__init__ None (Some 3%float) None 1%float
   = Ok {| MinMaxRewardScaler._minimum := None;
           MinMaxRewardScaler._maximum := None;
           MinMaxRewardScaler._multiplier := 1%float |}
   /\ both_or_neither (@None float) (@None float))
  /\ (np_min (non_first_rewards corpus_float) = Ok (-2)%float
      /\ np_max (non_first_rewards corpus_float) = Ok 7%float
      /\ MinMaxRewardScaler.fit
           {| MinMaxRewardScaler._minimum := None;
              MinMaxRewardScaler._maximum := None;
              MinMaxRewardScaler._multiplier := 1%float |} corpus_float
         = Effect {| MinMaxRewardScaler._minimum := Some (-2)%float;
                     MinMaxRewardScaler._maximum := Some 7%float;
                     MinMaxRewardScaler._multiplier := 1%float |} [] (Ok tt))
  /\ (both_or_neither (StandardRewardScaler._mean standard_0_6_1)
        (StandardRewardScaler._std standard_0_6_1)
      /\ both_or_neither
           (StandardRewardScaler._mean
              (obj (StandardRewardScaler.fit standard_0_6_1 corpus_float)))
           (StandardRewardScaler._std
              (obj (StandardRewardScaler.fit standard_0_6_1 corpus_float)))).
Proof.
  pose proof (statistics_both_or_neither (T := float))
    as (Hinit & _ & _ & _ & Hfit & _ & Hkeep & _).
  assert (Hone : MinMaxRewardScaler.__init__ None (Some 3%float) None 1%float
                 = Ok {| MinMaxRewardScaler._minimum := None;
                         MinMaxRewardScaler._maximum := None;
                         MinMaxRewardScaler._multiplier := 1%float |})
    by reflexivity.
  assert (Hlo : np_min (non_first_rewards corpus_float) = Ok (-2)%float)
    by (vm_compute; reflexivity).
  assert (Hhi : np_max (non_first_rewards corpus_float) = Ok 7%float)
    by (vm_compute; reflexivity).
  assert (Hinv : both_or_neither (StandardRewardScaler._mean standard_0_6_1)
                   (StandardRewardScaler._std standard_0_6_1))
    by (split; intros _; eexists; reflexivity).
  split; [split; [exact Hone | exact (Hinit _ _ _ _ _ Hone)] |].
  split; [split; [exact Hlo | split; [exact Hhi |]] |].
  - exact (Hfit 1%float corpus_float (-2)%float 7%float Hlo Hhi).
  - split; [exact Hinv | exact (Hkeep standard_0_6_1 corpus_float Hinv)].
Defined.

(** * Further properties of the scalers *)

(** ** Exact arithmetic: the transforms as functions *)

Section TransformFacts.
Open Scope Q_scope.

Lemma batch_eq_map2 (f g : Q -> Q) (reward : list Q) :
  (forall r, f r == g r) -> batch_eq (List.map f reward) (List.map g reward).
Proof.
  intros Hfg. unfold batch_eq.
  induction reward as [|r reward IH]; simpl; constructor; auto.
Qed.

Lemma batch_within_map (f : Q -> Q) (P : Q -> Prop) (lo hi : Q) (reward : list Q) :
  (forall r, P r -> lo <= f r /\ f r <= hi) ->
  Forall P reward -> batch_within lo hi (List.map f reward).
Proof.
  intros Hf Hall. unfold batch_within.
  induction Hall as [|r reward Hr Hall IH]; simpl; constructor; auto.
Qed.

Lemma clamp_lower (low high r : Q) :
  low <= high -> low <= clamp (Some low) (Some high) r.
Proof.
  intros Hlh. simpl. apply Q.min_glb; [apply Q.le_max_r | exact Hlh].
Qed.

Lemma clamp_upper (low high : option Q) (h r : Q) :
  high = Some h -> clamp low high r <= h.
Proof. intros ->. simpl. apply Q.le_min_r. Qed.

Lemma min_max_formula_range (minimum maximum multiplier r : Q) :
  minimum < maximum -> 0 <= multiplier -> minimum <= r -> r <= maximum ->
  0 <= multiplier * (r - minimum) / (maximum - minimum)
  /\ multiplier * (r - minimum) / (maximum - minimum) <= multiplier.
Proof.
  intros Hlt Hm Hlo Hhi.
  assert (Hbase : 0 < maximum - minimum) by lra.
  split.
  - apply Qle_shift_div_l; [exact Hbase |]. nra.
  - apply Qle_shift_div_r; [exact Hbase |]. nra.
Qed.

Lemma min_max_formula_monotone (minimum maximum multiplier r1 r2 : Q) :
  minimum < maximum -> 0 <= multiplier -> r1 <= r2 ->
  multiplier * (r1 - minimum) / (maximum - minimum)
  <= multiplier * (r2 - minimum) / (maximum - minimum).
Proof.
  intros Hlt Hm Hr.
  assert (Hbase : 0 < maximum - minimum) by lra.
  apply Qle_shift_div_r; [exact Hbase |].
  assert (Heq : multiplier * (r2 - minimum) / (maximum - minimum)
                * (maximum - minimum) == multiplier * (r2 - minimum))
    by (field; lra).
  rewrite Heq. nra.
Qed.
End TransformFacts.

(** X1. In exact arithmetic the round trip also holds in the other direction:
    for Multiply, Min-Max and Standardize with a nonzero multiplier, [maximum]
    different from [minimum] and [std + eps] nonzero, [transform] applied to
    the result of [reverse_transform] gives back every element of the batch. *)
Theorem transform_after_reverse_transform :
  (forall (m : Q) (reward : list Q),
      ~ (m == 0)%Q ->
      exists out,
        MultiplyRewardScaler.reverse_transform (multiply_with (Some m)) reward
        ≫= MultiplyRewardScaler.transform (multiply_with (Some m)) = Ok out
        /\ batch_eq out reward)
  /\ (forall (minimum maximum multiplier : Q) (reward : list Q),
      ~ (multiplier == 0)%Q -> ~ (maximum == minimum)%Q ->
      exists out,
        MinMaxRewardScaler.reverse_transform
          (min_max_with (Some minimum) (Some maximum) multiplier) reward
        ≫= MinMaxRewardScaler.transform
             (min_max_with (Some minimum) (Some maximum) multiplier) = Ok out
        /\ batch_eq out reward)
  /\ (forall (mean std eps multiplier : Q) (reward : list Q),
      ~ (multiplier == 0)%Q -> ~ (std + eps == 0)%Q ->
      exists out,
        StandardRewardScaler.reverse_transform
          (standard_with (Some mean) (Some std) eps multiplier) reward
        ≫= StandardRewardScaler.transform
             (standard_with (Some mean) (Some std) eps multiplier) = Ok out
        /\ batch_eq out reward).
Proof.
  split; [| split].
  - intros m reward Hm. eexists. split; [reflexivity |].
    unfold scalar_mul, div_scalar. rewrite List.map_map.
    apply batch_eq_map. intros r. simpl. field. exact Hm.
  - intros minimum maximum multiplier reward Hm Hbase.
    eexists. split; [reflexivity |].
    unfold add_scalar, div_scalar, mul_scalar, scalar_mul, sub_scalar.
    rewrite !List.map_map. apply batch_eq_map. intros r. simpl. field.
    split; first [exact Hm | intros Hz; apply Hbase;
                  rewrite <- (Qplus_0_l minimum), <- Hz; ring].
  - intros mean std eps multiplier reward Hm Hstd.
    eexists. split; [reflexivity |].
    unfold add_scalar, div_scalar, mul_scalar, scalar_mul, sub_scalar.
    rewrite !List.map_map. apply batch_eq_map. intros r. simpl. field.
    split; assumption.
Qed.

Lemma transform_after_reverse_transform_witness :
  (~ (3 == 0)%Q /\ ~ (10 == 0)%Q /\ ~ (2 + 1 == 0)%Q)
  /\ (exists out,
       MultiplyRewardScaler.reverse_transform (multiply_with (Some 3%Q)) [7%Q]
       ≫= MultiplyRewardScaler.transform (multiply_with (Some 3%Q)) = Ok out
       /\ batch_eq out [7%Q])
  /\ (exists out,
       MinMaxRewardScaler.reverse_transform
         (min_max_with (Some 0%Q) (Some 10%Q) 3%Q) [(1 # 2)%Q]
       ≫= MinMaxRewardScaler.transform
            (min_max_with (Some 0%Q) (Some 10%Q) 3%Q) = Ok out
       /\ batch_eq out [(1 # 2)%Q])
  /\ (exists out,
       StandardRewardScaler.reverse_transform
         (standard_with (Some 0%Q) (Some 2%Q) 1%Q 3%Q) [5%Q]
       ≫= StandardRewardScaler.transform
            (standard_with (Some 0%Q) (Some 2%Q) 1%Q 3%Q) = Ok out
       /\ batch_eq out [5%Q]).
Proof.
  assert (H3 : ~ (3 == 0)%Q) by (intros Hz; vm_compute in Hz; discriminate Hz).
  assert (H10 : ~ (10 == 0)%Q) by (intros Hz; vm_compute in Hz; discriminate Hz).
  assert (H21 : ~ (2 + 1 == 0)%Q) by (intros Hz; vm_compute in Hz; discriminate Hz).
  split; [now repeat split |]. split; [| split].
  - exact (proj1 transform_after_reverse_transform 3%Q [7%Q] H3).
  - exact (proj1 (proj2 transform_after_reverse_transform)
             0%Q 10%Q 3%Q [(1 # 2)%Q] H3 H10).
  - exact (proj2 (proj2 transform_after_reverse_transform)
             0%Q 2%Q 1%Q 3%Q [5%Q] H3 H21).
Defined.

Lemma is_clamp_of_Qeq (low high : option Q) (r c y : Q) :
  (y == c)%Q -> is_clamp_of low high r c -> is_clamp_of low high r y.
Proof.
  intros Hy (Hlow & Hhigh & Hin). split; [| split].
  - intros l Hl Hr. rewrite Hy. now apply Hlow.
  - intros h Hh Hr. rewrite Hy. now apply Hhigh.
  - intros Hlo Hhi. rewrite Hy. now apply Hin.
Qed.

(** X2. In exact arithmetic, for Clip with at least one bound set
    ([low <= high] when both are) and a nonzero multiplier, [reverse_transform]
    applied to the result of [transform] returns the clamped rewards: the
    lower bound for a reward below it, the upper bound for a reward above it,
    and the reward itself within the bounds that are set; so rewards that lie
    within the two bounds come back unchanged. With no bound set the round
    trip fails with the RuntimeError of the clamp. *)
Theorem clip_reverse_returns_clamped :
  (forall (low high : option Q) (m : Q) (reward : list Q),
      is_Some low \/ is_Some high ->
      (forall l h, low = Some l -> high = Some h -> (l <= h)%Q) ->
      ~ (m == 0)%Q ->
      exists out,
        ClipRewardScaler.transform (clip_with low high m) reward
        ≫= ClipRewardScaler.reverse_transform (clip_with low high m) = Ok out
        /\ Forall2 (is_clamp_of low high) reward out)
  /\ (forall (low high m : Q) (reward : list Q),
      ~ (m == 0)%Q ->
      batch_within low high reward ->
      exists out,
        ClipRewardScaler.transform (clip_with (Some low) (Some high) m) reward
        ≫= ClipRewardScaler.reverse_transform (clip_with (Some low) (Some high) m)
        = Ok out
        /\ batch_eq out reward)
  /\ (forall (m : Q) (reward : list Q),
      ClipRewardScaler.transform (clip_with None None m) reward
      ≫= ClipRewardScaler.reverse_transform (clip_with None None m)
      = Raise (RuntimeError
                 "torch.clamp: At least one of 'min' or 'max' must not be None")).
Proof.
  split; [| split].
  - intros low high m reward Hbound Hlh Hm.
    rewrite (clip_transform_bounds_present low high m reward Hbound).
    eexists. split; [reflexivity |].
    unfold div_scalar. rewrite List.map_map.
    induction reward as [|r reward IH]; simpl; constructor; [| exact IH].
    apply (is_clamp_of_Qeq _ _ _ (torch_clamp low high r));
      [| now apply torch_clamp_is_clamp].
    change (m * torch_clamp low high r / m == torch_clamp low high r)%Q.
    field. exact Hm.
  - intros low high m reward Hm Hin.
    rewrite (clip_transform_bounds_present (Some low) (Some high) m reward)
      by (left; eexists; reflexivity).
    eexists. split; [reflexivity |].
    unfold div_scalar. rewrite List.map_map.
    unfold batch_within in Hin. unfold batch_eq.
    induction Hin as [|r reward [Hlo Hhi] Hin IH]; simpl; constructor; auto.
    change (m * torch_clamp (Some low) (Some high) r / m == r)%Q.
    rewrite torch_clamp_Q, (clamp_inside low high r Hlo Hhi).
    field. exact Hm.
  - reflexivity.
Qed.

Lemma clip_reverse_returns_clamped_witness :
  ((is_Some (Some (-1)%Q) \/ is_Some (@None Q))
   /\ ~ (2 == 0)%Q /\ batch_within (-1) 1 [(1 # 2)%Q; 1%Q])
  /\ (exists out,
       ClipRewardScaler.transform (clip_with (Some (-1)%Q) None 2%Q) [(-5)%Q]
       ≫= ClipRewardScaler.reverse_transform (clip_with (Some (-1)%Q) None 2%Q)
       = Ok out
       /\ Forall2 (is_clamp_of (Some (-1)%Q) None) [(-5)%Q] out)
  /\ (exists out,
       ClipRewardScaler.transform (clip_with (Some (-1)%Q) (Some 1%Q) 2%Q)
         [(1 # 2)%Q; 1%Q]
       ≫= ClipRewardScaler.reverse_transform
            (clip_with (Some (-1)%Q) (Some 1%Q) 2%Q)
       = Ok out
       /\ batch_eq out [(1 # 2)%Q; 1%Q]).
Proof.
  assert (Hbound : is_Some (Some (-1)%Q) \/ is_Some (@None Q))
    by (left; eexists; reflexivity).
  assert (Hlh : forall l h : Q, Some (-1)%Q = Some l -> @None Q = Some h ->
                                (l <= h)%Q) by (intros l h _ [=]).
  assert (H2 : ~ (2 == 0)%Q) by (intros Hz; vm_compute in Hz; discriminate Hz).
  assert (Hin : batch_within (-1) 1 [(1 # 2)%Q; 1%Q])
    by (repeat constructor; vm_compute; discriminate).
  split; [now repeat split |]. split.
  - exact (proj1 clip_reverse_returns_clamped (Some (-1)%Q) None 2%Q [(-5)%Q]
             Hbound Hlh H2).
  - exact (proj1 (proj2 clip_reverse_returns_clamped) (-1)%Q 1%Q 2%Q
             [(1 # 2)%Q; 1%Q] H2 Hin).
Defined.

(** X3. In exact arithmetic, for Clip with [low <= high] and a multiplier that
    is not negative, every transformed reward lies between [multiplier * low]
    and [multiplier * high], whatever the rewards are. *)
Theorem clip_transform_bounded (low high m : Q) (reward : list Q) :
  (low <= high)%Q -> (0 <= m)%Q ->
  exists out,
    ClipRewardScaler.transform (clip_with (Some low) (Some high) m) reward = Ok out
    /\ batch_within (m * low) (m * high) out.
Proof.
  intros Hlh Hm.
  rewrite (clip_transform_bounds_present (Some low) (Some high) m reward)
    by (left; eexists; reflexivity).
  eexists. split; [reflexivity |].
  apply (batch_within_map _ (fun _ => True)).
  - intros r _.
    pose proof (clamp_lower low high r Hlh) as Hlo.
    pose proof (clamp_upper (Some low) (Some high) high r eq_refl) as Hhi.
    change (m * low <= m * torch_clamp (Some low) (Some high) r
            /\ m * torch_clamp (Some low) (Some high) r <= m * high)%Q.
    rewrite torch_clamp_Q. split; nra.
  - apply Forall_forall. auto.
Qed.

Lemma clip_transform_bounded_witness :
  ((-1 <= 1)%Q /\ (0 <= 2)%Q)
  /\ exists out,
       ClipRewardScaler.transform (clip_with (Some (-1)%Q) (Some 1%Q) 2%Q)
         [5%Q; (-5)%Q; (1 # 2)%Q] = Ok out
       /\ batch_within (2 * -1) (2 * 1) out.
Proof.
  assert (Hlh : (-1 <= 1)%Q) by (vm_compute; discriminate).
  assert (Hm : (0 <= 2)%Q) by (vm_compute; discriminate).
  split; [split; assumption |].
  exact (clip_transform_bounded (-1)%Q 1%Q 2%Q [5%Q; (-5)%Q; (1 # 2)%Q] Hlh Hm).
Defined.

(** X4. In exact arithmetic, for Min-Max with [minimum < maximum]: [transform]
    maps [minimum] to 0 and [maximum] to the multiplier; with a multiplier
    that is not negative it maps every reward between [minimum] and [maximum]
    to a value between 0 and the multiplier, and it preserves the order of
    rewards. *)
Theorem min_max_transform_range (minimum maximum multiplier : Q) :
  (minimum < maximum)%Q ->
  (exists lo hi,
      MinMaxRewardScaler.transform
        (min_max_with (Some minimum) (Some maximum) multiplier)
        [minimum; maximum] = Ok [lo; hi]
      /\ (lo == 0)%Q /\ (hi == multiplier)%Q)
  /\ (forall reward : list Q,
      (0 <= multiplier)%Q ->
      batch_within minimum maximum reward ->
      exists out,
        MinMaxRewardScaler.transform
          (min_max_with (Some minimum) (Some maximum) multiplier) reward = Ok out
        /\ batch_within 0 multiplier out)
  /\ (forall r1 r2 : Q,
      (0 <= multiplier)%Q -> (r1 <= r2)%Q ->
      exists y1 y2,
        MinMaxRewardScaler.transform
          (min_max_with (Some minimum) (Some maximum) multiplier) [r1; r2]
        = Ok [y1; y2]
        /\ (y1 <= y2)%Q).
Proof.
  intros Hlt. split; [| split].
  - eexists _, _. split; [reflexivity |]. simpl. split; field; lra.
  - intros reward Hm Hin. eexists. split; [reflexivity |].
    unfold div_scalar, scalar_mul, sub_scalar. rewrite !List.map_map.
    apply (batch_within_map _ (fun r => minimum <= r /\ r <= maximum)%Q);
      [| exact Hin].
    intros r [Hlo Hhi]. simpl. now apply min_max_formula_range.
  - intros r1 r2 Hm Hr. eexists _, _. split; [reflexivity |].
    simpl. now apply min_max_formula_monotone.
Qed.

Lemma min_max_transform_range_witness :
  ((0 < 10)%Q /\ (0 <= 3)%Q /\ batch_within 0 10 [5%Q; 10%Q] /\ (2 <= 5)%Q)
  /\ (exists out,
       MinMaxRewardScaler.transform (min_max_with (Some 0%Q) (Some 10%Q) 3%Q)
         [5%Q; 10%Q] = Ok out
       /\ batch_within 0 3 out)
  /\ (exists y1 y2,
       MinMaxRewardScaler.transform (min_max_with (Some 0%Q) (Some 10%Q) 3%Q)
         [2%Q; 5%Q] = Ok [y1; y2]
       /\ (y1 <= y2)%Q).
Proof.
  assert (Hlt : (0 < 10)%Q) by reflexivity.
  assert (Hm : (0 <= 3)%Q) by (vm_compute; discriminate).
  assert (Hin : batch_within 0 10 [5%Q; 10%Q])
    by (repeat constructor; vm_compute; discriminate).
  assert (Hr : (2 <= 5)%Q) by (vm_compute; discriminate).
  split; [now repeat split |].
  pose proof (min_max_transform_range 0%Q 10%Q 3%Q Hlt) as (_ & Hrange & Hmono).
  split; [exact (Hrange _ Hm Hin) | exact (Hmono _ _ Hm Hr)].
Defined.

(** ** Fitting from data, in exact arithmetic *)

Section FitFromData.
Open Scope Q_scope.

Lemma min_max_fit_extrema (self : MinMaxRewardScaler.t Q) (eps : list (Episode Q)) :
  is_not_None (MinMaxRewardScaler._minimum self)
    && is_not_None (MinMaxRewardScaler._maximum self) = false ->
  non_first_rewards eps <> [] ->
  exists lo hi,
    MinMaxRewardScaler.fit self eps
    = Effect (min_max_with (Some lo) (Some hi) (MinMaxRewardScaler._multiplier self))
        [] (Ok tt)
    /\ is_minimum lo (non_first_rewards eps)
    /\ is_maximum hi (non_first_rewards eps).
Proof.
  intros Hunset Hne.
  destruct (np_min_spec _ Hne) as (lo & Hlo & Hmin).
  destruct (np_max_spec _ Hne) as (hi & Hhi & Hmax).
  exists lo, hi. split; [| split; assumption].
  now apply min_max_fit_unset.
Qed.

Lemma extrema_ordered (lo hi : Q) (a : list Q) :
  is_minimum lo a -> is_maximum hi a -> lo <= hi.
Proof.
  intros [Hin _] [_ Hall].
  exact (proj1 (List.Forall_forall _ a) Hall lo Hin).
Qed.

Lemma extrema_enclose (lo hi : Q) (a : list Q) :
  is_minimum lo a -> is_maximum hi a -> batch_within lo hi a.
Proof.
  intros [_ Hlo] [_ Hhi]. unfold batch_within.
  apply List.Forall_forall. intros x Hx. split.
  - exact (proj1 (List.Forall_forall _ a) Hlo x Hx).
  - exact (proj1 (List.Forall_forall _ a) Hhi x Hx).
Qed.

Lemma minimum_unique (lo lo' : Q) (a b : list Q) :
  Permutation a b -> is_minimum lo a -> is_minimum lo' b -> lo == lo'.
Proof.
  intros Hperm [Hin Hall] [Hin' Hall'].
  apply Qle_antisym.
  - apply (proj1 (List.Forall_forall _ a) Hall).
    apply (Permutation_in _ (Permutation_sym Hperm)). exact Hin'.
  - apply (proj1 (List.Forall_forall _ b) Hall').
    apply (Permutation_in _ Hperm). exact Hin.
Qed.

Lemma maximum_unique (hi hi' : Q) (a b : list Q) :
  Permutation a b -> is_maximum hi a -> is_maximum hi' b -> hi == hi'.
Proof.
  intros Hperm [Hin Hall] [Hin' Hall'].
  apply Qle_antisym.
  - apply (proj1 (List.Forall_forall _ b) Hall').
    apply (Permutation_in _ Hperm). exact Hin.
  - apply (proj1 (List.Forall_forall _ a) Hall).
    apply (Permutation_in _ (Permutation_sym Hperm)). exact Hin'.
Qed.
End FitFromData.

Lemma non_first_rewards_cons {T} (e : Episode T) (eps : list (Episode T)) :
  non_first_rewards (e :: eps) = tail (rewards e) ++ non_first_rewards eps.
Proof. reflexivity. Qed.

Lemma non_first_rewards_app {T} (eps1 eps2 : list (Episode T)) :
  non_first_rewards (eps1 ++ eps2)
  = non_first_rewards eps1 ++ non_first_rewards eps2.
Proof.
  unfold non_first_rewards. now rewrite List.map_app, concat_app.
Qed.

Lemma non_first_rewards_perm {T} (eps eps' : list (Episode T)) :
  Permutation eps eps' ->
  Permutation (non_first_rewards eps) (non_first_rewards eps').
Proof.
  induction 1 as [| e l l' _ IH | e1 e2 l | l l' l'' _ IH1 _ IH2].
  - constructor.
  - rewrite !non_first_rewards_cons. now apply Permutation_app_head.
  - rewrite !non_first_rewards_cons, !app_assoc.
    apply Permutation_app_tail, Permutation_app_comm.
  - now transitivity (non_first_rewards l').
Qed.

(** X5. In exact arithmetic, a Min-Max scaler with unset statistics and a
    multiplier that is not negative, fitted on a corpus with at least one
    non-first reward, maps every reward it was fitted on to a value between 0
    and the multiplier, provided the fitted minimum lies below the fitted
    maximum. *)
Theorem min_max_fit_then_transform_in_range
    (self : MinMaxRewardScaler.t Q) (eps : list (Episode Q)) :
  is_not_None (MinMaxRewardScaler._minimum self)
    && is_not_None (MinMaxRewardScaler._maximum self) = false ->
  non_first_rewards eps <> [] ->
  (0 <= MinMaxRewardScaler._multiplier self)%Q ->
  outcome (MinMaxRewardScaler.fit self eps) = Ok tt
  /\ exists lo hi,
       MinMaxRewardScaler._minimum (obj (MinMaxRewardScaler.fit self eps)) = Some lo
       /\ MinMaxRewardScaler._maximum (obj (MinMaxRewardScaler.fit self eps)) = Some hi
       /\ ((lo < hi)%Q ->
           exists out,
             MinMaxRewardScaler.transform (obj (MinMaxRewardScaler.fit self eps))
               (non_first_rewards eps) = Ok out
             /\ batch_within 0 (MinMaxRewardScaler._multiplier self) out).
Proof.
  intros Hunset Hne Hm.
  destruct (min_max_fit_extrema self eps Hunset Hne) as (lo & hi & -> & Hmin & Hmax).
  simpl. split; [reflexivity |].
  exists lo, hi. split; [reflexivity |]. split; [reflexivity |].
  intros Hlt. eexists. split; [reflexivity |].
  unfold div_scalar, scalar_mul, sub_scalar. rewrite !List.map_map.
  apply (batch_within_map _ (fun r => lo <= r /\ r <= hi)%Q);
    [| exact (extrema_enclose _ _ _ Hmin Hmax)].
  intros r [Hlo Hhi]. simpl. now apply min_max_formula_range.
Qed.

Lemma min_max_fit_then_transform_in_range_witness :
  (is_not_None (MinMaxRewardScaler._minimum (min_max_with None None 1%Q))
     && is_not_None (MinMaxRewardScaler._maximum (min_max_with None None 1%Q))
   = false
   /\ non_first_rewards corpus_Q <> []
   /\ (0 <= 1)%Q)
  /\ outcome (MinMaxRewardScaler.fit (min_max_with None None 1%Q) corpus_Q) = Ok tt
  /\ exists lo hi,
       MinMaxRewardScaler._minimum
         (obj (MinMaxRewardScaler.fit (min_max_with None None 1%Q) corpus_Q))
       = Some lo
       /\ MinMaxRewardScaler._maximum
            (obj (MinMaxRewardScaler.fit (min_max_with None None 1%Q) corpus_Q))
          = Some hi
       /\ ((lo < hi)%Q ->
           exists out,
             MinMaxRewardScaler.transform
               (obj (MinMaxRewardScaler.fit (min_max_with None None 1%Q) corpus_Q))
               (non_first_rewards corpus_Q) = Ok out
             /\ batch_within 0 1 out).
Proof.
  assert (Hunset :
            is_not_None (MinMaxRewardScaler._minimum (min_max_with None None 1%Q))
              && is_not_None
                   (MinMaxRewardScaler._maximum (min_max_with None None 1%Q))
            = false) by reflexivity.
  assert (Hne : non_first_rewards corpus_Q <> []) by (vm_compute; discriminate).
  assert (Hm : (0 <= 1)%Q) by (vm_compute; discriminate).
  split; [now repeat split |].
  exact (min_max_fit_then_transform_in_range (min_max_with None None 1%Q)
           corpus_Q Hunset Hne Hm).
Defined.

(** X6. In exact arithmetic, the statistics Min-Max fits from data are
    ordered, [minimum <= maximum], and they coincide exactly when all the
    non-first rewards of the corpus are equal. *)
Theorem min_max_fit_ordered
    (self : MinMaxRewardScaler.t Q) (eps : list (Episode Q)) :
  is_not_None (MinMaxRewardScaler._minimum self)
    && is_not_None (MinMaxRewardScaler._maximum self) = false ->
  non_first_rewards eps <> [] ->
  exists lo hi,
    MinMaxRewardScaler._minimum (obj (MinMaxRewardScaler.fit self eps)) = Some lo
    /\ MinMaxRewardScaler._maximum (obj (MinMaxRewardScaler.fit self eps)) = Some hi
    /\ (lo <= hi)%Q
    /\ ((lo == hi)%Q <-> Forall (fun x => (x == lo)%Q) (non_first_rewards eps)).
Proof.
  intros Hunset Hne.
  destruct (min_max_fit_extrema self eps Hunset Hne) as (lo & hi & -> & Hmin & Hmax).
  exists lo, hi. split; [reflexivity |]. split; [reflexivity |].
  split; [exact (extrema_ordered _ _ _ Hmin Hmax) |].
  split.
  - intros Heq. apply List.Forall_forall. intros x Hx.
    pose proof (extrema_enclose _ _ _ Hmin Hmax) as Hin.
    destruct (proj1 (List.Forall_forall _ _) Hin x Hx) as [Hlo Hhi].
    apply Qle_antisym; [| exact Hlo]. now rewrite Heq.
  - intros Hall. symmetry.
    exact (proj1 (List.Forall_forall _ _) Hall hi (proj1 Hmax)).
Qed.

Lemma min_max_fit_ordered_witness :
  exists lo hi,
    MinMaxRewardScaler._minimum
      (obj (MinMaxRewardScaler.fit (min_max_with None None 1%Q) corpus_Q)) = Some lo
    /\ MinMaxRewardScaler._maximum
         (obj (MinMaxRewardScaler.fit (min_max_with None None 1%Q) corpus_Q))
       = Some hi
    /\ (lo <= hi)%Q
    /\ ((lo == hi)%Q
        <-> Forall (fun x => (x == lo)%Q) (non_first_rewards corpus_Q)).
Proof.
  apply (min_max_fit_ordered (min_max_with None None 1%Q) corpus_Q).
  - reflexivity.
  - vm_compute. discriminate.
Defined.

(** X8. In exact arithmetic, the statistics Min-Max fits from data do not
    depend on the order of the episodes: fitting on a permutation of the
    corpus gives the same minimum and the same maximum. *)
Theorem min_max_fit_order_independent
    (self : MinMaxRewardScaler.t Q) (eps eps' : list (Episode Q)) :
  is_not_None (MinMaxRewardScaler._minimum self)
    && is_not_None (MinMaxRewardScaler._maximum self) = false ->
  non_first_rewards eps <> [] ->
  Permutation eps eps' ->
  exists lo hi lo' hi',
    MinMaxRewardScaler.fit self eps
    = Effect (min_max_with (Some lo) (Some hi) (MinMaxRewardScaler._multiplier self))
        [] (Ok tt)
    /\ MinMaxRewardScaler.fit self eps'
       = Effect (min_max_with (Some lo') (Some hi')
                   (MinMaxRewardScaler._multiplier self)) [] (Ok tt)
    /\ (lo == lo')%Q /\ (hi == hi')%Q.
Proof.
  intros Hunset Hne Hperm.
  pose proof (non_first_rewards_perm _ _ Hperm) as Hrs.
  assert (Hne' : non_first_rewards eps' <> []).
  { intros Hnil. rewrite Hnil in Hrs.
    apply Permutation_sym, Permutation_nil in Hrs. contradiction. }
  destruct (min_max_fit_extrema self eps Hunset Hne) as (lo & hi & Hfit & Hmin & Hmax).
  destruct (min_max_fit_extrema self eps' Hunset Hne')
    as (lo' & hi' & Hfit' & Hmin' & Hmax').
  exists lo, hi, lo', hi'. split; [exact Hfit |]. split; [exact Hfit' |].
  split.
  - exact (minimum_unique _ _ _ _ Hrs Hmin Hmin').
  - exact (maximum_unique _ _ _ _ Hrs Hmax Hmax').
Qed.

Lemma min_max_fit_order_independent_witness :
  exists lo hi lo' hi',
    MinMaxRewardScaler.fit (min_max_with None None 1%Q) corpus_Q
    = Effect (min_max_with (Some lo) (Some hi) 1%Q) [] (Ok tt)
    /\ MinMaxRewardScaler.fit (min_max_with None None 1%Q) (List.rev corpus_Q)
       = Effect (min_max_with (Some lo') (Some hi') 1%Q) [] (Ok tt)
    /\ (lo == lo')%Q /\ (hi == hi')%Q.
Proof.
  apply (min_max_fit_order_independent (min_max_with None None 1%Q)
           corpus_Q (List.rev corpus_Q)).
  - reflexivity.
  - vm_compute. discriminate.
  - unfold corpus_Q. simpl. apply perm_swap.
Defined.

(** ** Fitting from data, in any element arithmetic *)

Section FitEdgeCases.
Context {T : Type} `{Scalar T} `{Sqrt T}.

Lemma non_first_rewards_nil_iff (eps : list (Episode T)) :
  non_first_rewards eps = []
  <-> Forall (fun e => length (rewards e) <= 1) eps.
Proof.
  induction eps as [|e eps IH].
  - split; [constructor | reflexivity].
  - rewrite non_first_rewards_cons. split.
    + intros Hnil. apply app_eq_nil in Hnil as [Htl Hrest].
      constructor; [| now apply IH].
      destruct (rewards e) as [|x [|y l]]; simpl in *; [lia | lia | discriminate].
    + intros Hall. apply Forall_cons_iff in Hall as [Hlen Hrest].
      rewrite (proj2 IH Hrest), app_nil_r.
      destruct (rewards e) as [|x [|y l]]; simpl in *; [reflexivity | reflexivity | lia].
Qed.

Lemma min_max_fit_outcome (self : MinMaxRewardScaler.t T) (eps : list (Episode T)) :
  MinMaxRewardScaler.fit self eps = Effect self [] (Ok tt)
  \/ (is_not_None (MinMaxRewardScaler._minimum self)
        && is_not_None (MinMaxRewardScaler._maximum self) = false
      /\ ((non_first_rewards eps = []
           /\ MinMaxRewardScaler.fit self eps = Effect self [] (Raise ValueError))
          \/ (non_first_rewards eps <> []
              /\ exists lo hi,
                   MinMaxRewardScaler.fit self eps
                   = Effect (min_max_with (Some lo) (Some hi)
                               (MinMaxRewardScaler._multiplier self)) [] (Ok tt)))).
Proof.
  destruct (is_not_None (MinMaxRewardScaler._minimum self)
            && is_not_None (MinMaxRewardScaler._maximum self)) eqn:Hset.
  - left. unfold MinMaxRewardScaler.fit. now rewrite Hset.
  - right. split; [reflexivity |].
    destruct (non_first_rewards eps) as [|x xs] eqn:Hrs.
    + left. split; [reflexivity |]. now apply min_max_fit_no_rewards.
    + right. split; [discriminate |].
      exists (fold_left s_min xs x), (fold_left s_max xs x).
      apply min_max_fit_unset; [exact Hset | |]; now rewrite Hrs.
Qed.
End FitEdgeCases.

(** X7. Min-Max [fit] raises exactly when its statistics are not both set and
    no episode of the corpus has more than one reward (an empty corpus
    included); the error is the ValueError of [np.min], the object is left as
    it was, and in every other case [fit] returns normally. *)
Theorem min_max_fit_raises_iff {T : Type} `{Scalar T}
    (self : MinMaxRewardScaler.t T) (eps : list (Episode T)) :
  (outcome (MinMaxRewardScaler.fit self eps) = Raise ValueError
   <-> is_not_None (MinMaxRewardScaler._minimum self)
         && is_not_None (MinMaxRewardScaler._maximum self) = false
       /\ Forall (fun e => length (rewards e) <= 1) eps)
  /\ (outcome (MinMaxRewardScaler.fit self eps) = Raise ValueError ->
      obj (MinMaxRewardScaler.fit self eps) = self)
  /\ (outcome (MinMaxRewardScaler.fit self eps) <> Raise ValueError ->
      outcome (MinMaxRewardScaler.fit self eps) = Ok tt).
Proof.
  destruct (min_max_fit_outcome self eps)
    as [Hfit | [Hunset [[Hnil Hfit] | [Hne (lo & hi & Hfit)]]]];
    rewrite Hfit; simpl.
  - split; [| split; [reflexivity | reflexivity]].
    split; [discriminate |]. intros [Hunset _].
    unfold MinMaxRewardScaler.fit in Hfit. rewrite Hunset in Hfit.
    destruct (np_min (collect_rewards eps)) as [lo|e]; [| discriminate Hfit].
    destruct (np_max (collect_rewards eps)) as [hi|e]; [| discriminate Hfit].
    injection Hfit as Hobj. rewrite <- Hobj in Hunset. discriminate Hunset.
  - split; [| split; [reflexivity | congruence]].
    split; [| reflexivity]. intros _. split; [exact Hunset |].
    now apply non_first_rewards_nil_iff.
  - split; [| split; [discriminate | reflexivity]].
    split; [discriminate |]. intros [_ Hshort].
    apply non_first_rewards_nil_iff in Hshort. contradiction.
Qed.

Lemma min_max_fit_raises_iff_witness :
  (is_not_None (MinMaxRewardScaler._minimum (min_max_with None None 1%float))
     && is_not_None (MinMaxRewardScaler._maximum (min_max_with None None 1%float))
   = false
   /\ Forall (fun e : Episode float => length (rewards e) <= 1)
        [ {| rewards := [5%float] |}; {| rewards := [] |} ])
  /\ outcome (MinMaxRewardScaler.fit (min_max_with None None 1%float)
                [ {| rewards := [5%float] |}; {| rewards := [] |} ])
     = Raise ValueError
  /\ obj (MinMaxRewardScaler.fit (min_max_with None None 1%float)
            [ {| rewards := [5%float] |}; {| rewards := [] |} ])
     = min_max_with None None 1%float.
Proof.
  assert (Hpre :
            is_not_None (MinMaxRewardScaler._minimum (min_max_with None None 1%float))
              && is_not_None
                   (MinMaxRewardScaler._maximum (min_max_with None None 1%float))
            = false
            /\ Forall (fun e : Episode float => length (rewards e) <= 1)
                 [ {| rewards := [5%float] |}; {| rewards := [] |} ])
    by (split; [reflexivity | repeat constructor]).
  pose proof (min_max_fit_raises_iff (min_max_with None None 1%float)
                [ {| rewards := [5%float] |}; {| rewards := [] |} ])
    as (Hiff & Hobj & _).
  split; [exact Hpre |].
  split; [exact (proj2 Hiff Hpre) | exact (Hobj (proj2 Hiff Hpre))].
Defined.

Lemma non_first_rewards_ignores_first {T} (f : Episode T -> T)
    (eps : list (Episode T)) :
  non_first_rewards
    (List.map (fun e => {| rewards := f e :: tail (rewards e) |}) eps)
  = non_first_rewards eps.
Proof.
  unfold non_first_rewards. rewrite List.map_map. reflexivity.
Qed.

(** X9. The first reward of an episode never reaches the fitted statistics:
    replacing the first reward of every episode by any other value (or giving
    one to an episode without rewards) leaves the result of Min-Max [fit] and
    of Standardize [fit] unchanged. *)
Theorem fit_ignores_first_rewards {T : Type} `{Scalar T} `{Sqrt T}
    (f : Episode T -> T) (eps : list (Episode T)) :
  (forall self : MinMaxRewardScaler.t T,
      MinMaxRewardScaler.fit self
        (List.map (fun e => {| rewards := f e :: tail (rewards e) |}) eps)
      = MinMaxRewardScaler.fit self eps)
  /\ (forall self : StandardRewardScaler.t T,
      StandardRewardScaler.fit self
        (List.map (fun e => {| rewards := f e :: tail (rewards e) |}) eps)
      = StandardRewardScaler.fit self eps).
Proof.
  split; intros self.
  - unfold MinMaxRewardScaler.fit.
    now rewrite !collect_rewards_concat, non_first_rewards_ignores_first.
  - unfold StandardRewardScaler.fit.
    now rewrite !collect_rewards_concat, non_first_rewards_ignores_first.
Qed.

Section FitThenTransform.
Context {T : Type} `{Scalar T} `{Sqrt T}.

Lemma min_max_transforms_ok (self : MinMaxRewardScaler.t T) (reward : list T) :
  is_Some (MinMaxRewardScaler._minimum self) ->
  is_Some (MinMaxRewardScaler._maximum self) ->
  is_ok (MinMaxRewardScaler.transform self reward) = true
  /\ is_ok (MinMaxRewardScaler.reverse_transform self reward) = true
  /\ is_ok (MinMaxRewardScaler.transform_numpy self reward) = true.
Proof.
  destruct self as [lo hi m]. intros [a Ha] [b Hb]. simpl in Ha, Hb. subst.
  repeat split.
Qed.

Lemma standard_transforms_ok (self : StandardRewardScaler.t T) (reward : list T) :
  is_Some (StandardRewardScaler._mean self) ->
  is_Some (StandardRewardScaler._std self) ->
  is_ok (StandardRewardScaler.transform self reward) = true
  /\ is_ok (StandardRewardScaler.reverse_transform self reward) = true
  /\ is_ok (StandardRewardScaler.transform_numpy self reward) = true.
Proof.
  destruct self as [mu sd e m]. intros [a Ha] [b Hb]. simpl in Ha, Hb. subst.
  repeat split.
Qed.
End FitThenTransform.

(** X10. A [fit] that returned normally makes the transforms usable: after a
    Min-Max [fit] whose outcome is not an exception, and after every
    Standardize [fit] (which never raises, also on a corpus without rewards),
    [transform], [reverse_transform] and [transform_numpy] of the fitted
    object pass their assertion on any batch. *)
Theorem transforms_succeed_after_fit {T : Type} `{Scalar T} `{Sqrt T}
    (eps : list (Episode T)) (reward : list T) :
  (forall self : MinMaxRewardScaler.t T,
      outcome (MinMaxRewardScaler.fit self eps) = Ok tt ->
      is_ok (MinMaxRewardScaler.transform
               (obj (MinMaxRewardScaler.fit self eps)) reward) = true
      /\ is_ok (MinMaxRewardScaler.reverse_transform
                  (obj (MinMaxRewardScaler.fit self eps)) reward) = true
      /\ is_ok (MinMaxRewardScaler.transform_numpy
                  (obj (MinMaxRewardScaler.fit self eps)) reward) = true)
  /\ (forall self : StandardRewardScaler.t T,
      outcome (StandardRewardScaler.fit self eps) = Ok tt
      /\ is_ok (StandardRewardScaler.transform
                  (obj (StandardRewardScaler.fit self eps)) reward) = true
      /\ is_ok (StandardRewardScaler.reverse_transform
                  (obj (StandardRewardScaler.fit self eps)) reward) = true
      /\ is_ok (StandardRewardScaler.transform_numpy
                  (obj (StandardRewardScaler.fit self eps)) reward) = true).
Proof.
  split; intros self.
  - intros Hok. destruct (min_max_fit_sets_both self eps Hok) as [Hlo Hhi].
    now apply min_max_transforms_ok.
  - destruct (standard_fit_sets_both self eps) as (Hok & Hmu & Hsd).
    split; [exact Hok |]. now apply standard_transforms_ok.
Qed.

Lemma transforms_succeed_after_fit_witness :
  outcome (MinMaxRewardScaler.fit (min_max_with None None 1%float) corpus_float)
  = Ok tt
  /\ is_ok (MinMaxRewardScaler.transform
              (obj (MinMaxRewardScaler.fit (min_max_with None None 1%float)
                      corpus_float)) [5%float]) = true
  /\ is_ok (MinMaxRewardScaler.reverse_transform
              (obj (MinMaxRewardScaler.fit (min_max_with None None 1%float)
                      corpus_float)) [5%float]) = true
  /\ is_ok (MinMaxRewardScaler.transform_numpy
              (obj (MinMaxRewardScaler.fit (min_max_with None None 1%float)
                      corpus_float)) [5%float]) = true.
Proof.
  assert (Hok : outcome (MinMaxRewardScaler.fit (min_max_with None None 1%float)
                           corpus_float) = Ok tt) by (vm_compute; reflexivity).
  split; [exact Hok |].
  exact (proj1 (transforms_succeed_after_fit corpus_float [5%float])
           (min_max_with None None 1%float) Hok).
Defined.

(** X11. [fit] of Multiply and of Clip never raises and never changes the
    object; it only warns. Multiply warns exactly when the multiplier is
    unset, which is exactly when [transform], [reverse_transform] and
    [transform_numpy] fail with a TypeError; Clip warns exactly when both
    bounds are unset. Min-Max and Standardize [fit] never warn. *)
Theorem fit_warnings {T : Type} `{Scalar T} `{Sqrt T}
    (eps : list (Episode T)) (reward : list T) :
  (forall self : MultiplyRewardScaler.t T,
      outcome (MultiplyRewardScaler.fit self eps) = Ok tt
      /\ (logged (MultiplyRewardScaler.fit self eps) = []
          <-> is_ok (MultiplyRewardScaler.transform self reward) = true)
      /\ (logged (MultiplyRewardScaler.fit self eps)
          = ["Please initialize MultiplyRewardScaler manually."]
          <-> MultiplyRewardScaler.transform self reward = Raise TypeError
              /\ MultiplyRewardScaler.reverse_transform self reward = Raise TypeError
              /\ MultiplyRewardScaler.transform_numpy self reward = Raise TypeError))
  /\ (forall self : ClipRewardScaler.t T,
      outcome (ClipRewardScaler.fit self eps) = Ok tt
      /\ (logged (ClipRewardScaler.fit self eps)
          = ["Please initialize ClipRewardScaler manually."]
          <-> ClipRewardScaler._low self = None
              /\ ClipRewardScaler._high self = None)
      /\ (logged (ClipRewardScaler.fit self eps) = []
          <-> is_Some (ClipRewardScaler._low self)
              \/ is_Some (ClipRewardScaler._high self)))
  /\ (forall self : MinMaxRewardScaler.t T,
      logged (MinMaxRewardScaler.fit self eps) = [])
  /\ (forall self : StandardRewardScaler.t T,
      logged (StandardRewardScaler.fit self eps) = []).
Proof.
  split; [| split; [| split]].
  - intros [[m|]]; simpl; (split; [reflexivity |]); split; split;
      try discriminate; try reflexivity; try (intros (Hx & _); discriminate Hx);
      auto.
  - intros [[lo|] [hi|] m]; simpl; (split; [reflexivity |]); split; split;
      try discriminate; try reflexivity; eauto;
      try (intros [Hx Hy]; discriminate);
      try (intros [[x Hx] | [x Hx]]; discriminate).
  - intros self.
    destruct (min_max_fit_outcome self eps)
      as [Hfit | [_ [[_ Hfit] | [_ (lo & hi & Hfit)]]]]; now rewrite Hfit.
  - intros self. unfold StandardRewardScaler.fit.
    destruct (is_not_None (StandardRewardScaler._mean self)
              && is_not_None (StandardRewardScaler._std self)); reflexivity.
Qed.

(** ** Creating scalers through the registry *)

Section CreateFacts.
Context {T : Type} `{Scalar T} `{Sqrt T}.

Lemma create_lookup_ext (name : string) (kwargs : list (string * pyval T))
    (reg reg' : gmap string (scaler_class T)) :
  reg !! name = reg' !! name ->
  create_reward_scaler name kwargs reg = create_reward_scaler name kwargs reg'.
Proof.
  intros Heq. unfold create_reward_scaler, registered. now rewrite Heq.
Qed.

Lemma registry_lookup (name : string) (cls : scaler_class T) :
  REWARD_SCALER_LIST !! name = Some cls ->
  (name = "multiply" /\ cls = MultiplyRewardScaler_class)
  \/ (name = "clip" /\ cls = ClipRewardScaler_class)
  \/ (name = "min_max" /\ cls = MinMaxRewardScaler_class)
  \/ (name = "standard" /\ cls = StandardRewardScaler_class).
Proof.
  unfold REWARD_SCALER_LIST. rewrite module_init_registry. simpl.
  rewrite !lookup_insert_Some, lookup_empty.
  intros [[<- <-] | [_ [[<- <-] | [_ [[<- <-] | [_ [[<- <-] | [_ Hnone]]]]]]]];
    [tauto | tauto | tauto | tauto | discriminate].
Qed.

Lemma class_call_type (cls : scaler_class T) (kwargs : list (string * pyval T))
    (self : scaler T) :
  In cls [RewardScaler_class; MultiplyRewardScaler_class; ClipRewardScaler_class;
          MinMaxRewardScaler_class; StandardRewardScaler_class] ->
  cls_call cls kwargs = Ok self -> get_type self = cls_TYPE cls.
Proof.
  intros Hin Hcall. simpl in Hin.
  destruct Hin as [<- | [<- | [<- | [<- | [<- | []]]]]]; simpl in Hcall;
    repeat match type of Hcall with
           | context [match ?x with _ => _ end] =>
               destruct x eqn:?; simpl in Hcall; try discriminate Hcall
           | (_ ≫= _) = _ => unfold mbind, result_bind in Hcall
           | (_ <$> _) = _ => unfold fmap, result_fmap in Hcall
           end;
    injection Hcall as <-; reflexivity.
Qed.
End CreateFacts.

(** X12. A scaler is rebuilt from its type and its parameters: for an object of
    one of the four registered classes whose statistics are both set or both
    unset, [create_reward_scaler] called with [get_type] of the object and the
    dictionary of [get_params] passed as keyword arguments returns an equal
    object. *)
Theorem create_from_type_and_params {T : Type} `{Scalar T} `{Sqrt T}
    (self : scaler T) (params : list (string * option T)) :
  statistics_paired self ->
  get_params self = Ok params ->
  create_reward_scaler (get_type self) (kwargs_of_params params) REWARD_SCALER_LIST
  = Ok self.
Proof.
  intros Hinv Hparams.
  destruct self as [[] | [m] | [lo hi m] | [lo hi m] | [mu sd e m]];
    simpl in Hparams; [discriminate Hparams | | | |];
    injection Hparams as <-.
  - rewrite (create_registered _ _ _ MultiplyRewardScaler_class) by reflexivity.
    destruct m; reflexivity.
  - rewrite (create_registered _ _ _ ClipRewardScaler_class) by reflexivity.
    destruct lo, hi; reflexivity.
  - rewrite (create_registered _ _ _ MinMaxRewardScaler_class) by reflexivity.
    destruct lo as [lo|], hi as [hi|]; try reflexivity; simpl in Hinv.
    + destruct (proj1 Hinv (ltac:(eauto))) as [x Hx]. discriminate Hx.
    + destruct (proj2 Hinv (ltac:(eauto))) as [x Hx]. discriminate Hx.
  - rewrite (create_registered _ _ _ StandardRewardScaler_class) by reflexivity.
    destruct mu as [mu|], sd as [sd|]; try reflexivity; simpl in Hinv.
    + destruct (proj1 Hinv (ltac:(eauto))) as [x Hx]. discriminate Hx.
    + destruct (proj2 Hinv (ltac:(eauto))) as [x Hx]. discriminate Hx.
Qed.

Lemma create_from_type_and_params_witness :
  (statistics_paired (MinMax min_max_0_22)
   /\ get_params (MinMax min_max_0_22)
      = Ok [("minimum", Some 0%float); ("maximum", Some 22%float);
            ("multiplier", Some 1%float)])
  /\ create_reward_scaler "min_max"
       [("minimum", PyFloat 0%float); ("maximum", PyFloat 22%float);
        ("multiplier", PyFloat 1%float)] REWARD_SCALER_LIST
     = Ok (MinMax min_max_0_22).
Proof.
  assert (Hinv : statistics_paired (MinMax min_max_0_22))
    by (split; intros _; eexists; reflexivity).
  assert (Hparams : get_params (MinMax min_max_0_22)
                    = Ok [("minimum", Some 0%float); ("maximum", Some 22%float);
                          ("multiplier", Some 1%float)]) by reflexivity.
  split; [split; assumption |].
  exact (create_from_type_and_params (MinMax min_max_0_22) _ Hinv Hparams).
Defined.

(** X13. Whatever the keyword arguments, an object that [create_reward_scaler]
    returns from the registry of the module has the requested name as its
    type, and that name is one of "multiply", "clip", "min_max" and
    "standard". *)
Theorem created_scaler_has_requested_type {T : Type} `{Scalar T} `{Sqrt T}
    (name : string) (kwargs : list (string * pyval T)) (self : scaler T) :
  create_reward_scaler name kwargs REWARD_SCALER_LIST = Ok self ->
  get_type self = name
  /\ In name ["multiply"; "clip"; "min_max"; "standard"].
Proof.
  intros Hcreate.
  destruct (REWARD_SCALER_LIST (T := T) !! name) as [cls|] eqn:Hcls.
  - rewrite (create_registered _ _ _ cls Hcls) in Hcreate.
    destruct (registry_lookup _ _ Hcls)
      as [[-> ->] | [[-> ->] | [[-> ->] | [-> ->]]]];
      (split; [| simpl; tauto]);
      (apply class_call_type in Hcreate; [exact Hcreate | simpl; tauto]).
  - rewrite (create_unregistered _ _ _ Hcls) in Hcreate. discriminate Hcreate.
Qed.

Lemma created_scaler_has_requested_type_witness :
  create_reward_scaler "clip" [("low", PyFloat (-1)%float)]
    (REWARD_SCALER_LIST (T := float))
  = Ok (Clip (clip_with (Some (-1)%float) None 1%float))
  /\ get_type (Clip (clip_with (Some (-1)%float) None 1%float)) = "clip"
  /\ In "clip" ["multiply"; "clip"; "min_max"; "standard"].
Proof.
  assert (Hcreate : create_reward_scaler "clip" [("low", PyFloat (-1)%float)]
                      (REWARD_SCALER_LIST (T := float))
                    = Ok (Clip (clip_with (Some (-1)%float) None 1%float)))
    by (vm_compute; reflexivity).
  split; [exact Hcreate |].
  exact (created_scaler_has_requested_type "clip" _ _ Hcreate).
Defined.

(** X14. Registration makes a class creatable under its identifier and
    disturbs no other name: after a class is registered in a registry that did
    not have its identifier, [create_reward_scaler] with that identifier is
    the call of the class with the keyword arguments, and for every other name
    it behaves as on the registry before. *)
Theorem create_after_register {T : Type} `{Scalar T} `{Sqrt T}
    (cls : scaler_class T) (reg : gmap string (scaler_class T))
    (kwargs : list (string * pyval T)) :
  reg !! cls_TYPE cls = None ->
  create_reward_scaler (cls_TYPE cls) kwargs (obj (register_reward_scaler cls reg))
  = cls_call cls kwargs
  /\ (forall name, name <> cls_TYPE cls ->
        create_reward_scaler name kwargs (obj (register_reward_scaler cls reg))
        = create_reward_scaler name kwargs reg).
Proof.
  intros Hfresh. rewrite (register_fresh _ _ Hfresh). simpl. split.
  - apply create_registered, lookup_insert_eq.
  - intros name Hne. apply create_lookup_ext, lookup_insert_ne. congruence.
Qed.

Lemma create_after_register_witness :
  REWARD_SCALER_LIST (T := float) !! "none" = None
  /\ create_reward_scaler "none" []
       (obj (register_reward_scaler RewardScaler_class
               (REWARD_SCALER_LIST (T := float))))
     = Ok (Base RewardScaler.Make).
Proof.
  assert (Hfresh : REWARD_SCALER_LIST (T := float) !! "none" = None)
    by reflexivity.
  split; [exact Hfresh |].
  exact (proj1 (create_after_register RewardScaler_class REWARD_SCALER_LIST []
                  Hfresh)).
Defined.

(** X15. The order in which two classes with different identifiers are
    registered does not matter: on a registry that has neither identifier,
    both orders succeed and leave the same registry. *)
Theorem register_order_irrelevant {T : Type} `{Scalar T} `{Sqrt T}
    (a b : scaler_class T) (reg : gmap string (scaler_class T)) :
  cls_TYPE a <> cls_TYPE b ->
  reg !! cls_TYPE a = None ->
  reg !! cls_TYPE b = None ->
  outcome (and_then (register_reward_scaler a reg) (register_reward_scaler b))
  = Ok tt
  /\ and_then (register_reward_scaler a reg) (register_reward_scaler b)
     = and_then (register_reward_scaler b reg) (register_reward_scaler a).
Proof.
  intros Hne Ha Hb.
  assert (Hb' : <[cls_TYPE a := a]> reg !! cls_TYPE b = None)
    by (rewrite lookup_insert_ne; [exact Hb | exact Hne]).
  assert (Ha' : <[cls_TYPE b := b]> reg !! cls_TYPE a = None)
    by (rewrite lookup_insert_ne; [exact Ha | congruence]).
  unfold and_then.
  rewrite (register_fresh _ _ Ha), (register_fresh _ _ Hb). simpl.
  rewrite (register_fresh _ _ Hb'), (register_fresh _ _ Ha'). simpl.
  split; [reflexivity |].
  f_equal. apply insert_insert_ne. congruence.
Qed.

Lemma register_order_irrelevant_witness :
  ("clip" <> "standard"
   /\ (∅ : gmap string (scaler_class float)) !! "clip" = None
   /\ (∅ : gmap string (scaler_class float)) !! "standard" = None)
  /\ and_then (register_reward_scaler ClipRewardScaler_class ∅)
       (register_reward_scaler StandardRewardScaler_class)
     = and_then (register_reward_scaler (T := float) StandardRewardScaler_class ∅)
         (register_reward_scaler ClipRewardScaler_class).
Proof.
  assert (Hne : "clip" <> "standard") by discriminate.
  assert (Ha : (∅ : gmap string (scaler_class float)) !! "clip" = None)
    by reflexivity.
  assert (Hb : (∅ : gmap string (scaler_class float)) !! "standard" = None)
    by reflexivity.
  split; [now repeat split |].
  exact (proj2 (register_order_irrelevant ClipRewardScaler_class
                  StandardRewardScaler_class ∅ Hne Ha Hb)).
Defined.

(** ** Constructing from a dataset *)

(** X16. A dataset that counts as true takes precedence in the constructors:
    the [minimum]/[maximum] (resp. [mean]/[std]) arguments are then ignored
    and the statistics are fitted from the episodes of the dataset, so that
    the Min-Max constructor raises the ValueError of [np.min] when the dataset
    has no non-first reward, while the Standardize constructor always returns.
    A dataset that counts as false is treated like no dataset. *)
Theorem init_with_dataset {T : Type} `{Scalar T} `{Sqrt T} (d : MDPDataset T) :
  (truthy d = true ->
   forall (minimum maximum : option T) (multiplier : T),
     MinMaxRewardScaler.__init__ (Some d) minimum maximum multiplier
     = MinMaxRewardScaler.__init__ (Some d) None None multiplier
     /\ (non_first_rewards (episodes d) = [] ->
         MinMaxRewardScaler.__init__ (Some d) minimum maximum multiplier
         = Raise ValueError)
     /\ (forall lo hi,
           np_min (non_first_rewards (episodes d)) = Ok lo ->
           np_max (non_first_rewards (episodes d)) = Ok hi ->
           MinMaxRewardScaler.__init__ (Some d) minimum maximum multiplier
           = Ok (min_max_with (Some lo) (Some hi) multiplier)))
  /\ (truthy d = true ->
      forall (mean std : option T) (eps0 multiplier : T),
        StandardRewardScaler.__init__ (Some d) mean std eps0 multiplier
        = Ok (standard_with (Some (np_mean (non_first_rewards (episodes d))))
                (Some (np_std (non_first_rewards (episodes d)))) eps0 multiplier))
  /\ (truthy d = false ->
      (forall (minimum maximum : option T) (multiplier : T),
          MinMaxRewardScaler.__init__ (Some d) minimum maximum multiplier
          = MinMaxRewardScaler.__init__ None minimum maximum multiplier)
      /\ (forall (mean std : option T) (eps0 multiplier : T),
          StandardRewardScaler.__init__ (Some d) mean std eps0 multiplier
          = StandardRewardScaler.__init__ None mean std eps0 multiplier)).
Proof.
  split; [| split].
  - intros Htrue minimum maximum multiplier.
    unfold MinMaxRewardScaler.__init__. rewrite Htrue. simpl from_option.
    split; [reflexivity |]. split.
    + intros Hnil.
      pose proof (min_max_fit_no_rewards (min_max_with None None multiplier)
                    (episodes d) eq_refl Hnil) as Hfit.
      unfold min_max_with in Hfit. now rewrite Hfit.
    + intros lo hi Hlo Hhi.
      pose proof (min_max_fit_unset (min_max_with None None multiplier)
                    (episodes d) lo hi eq_refl Hlo Hhi) as Hfit.
      unfold min_max_with in Hfit. simpl in Hfit. now rewrite Hfit.
  - intros Htrue mean std eps0 multiplier.
    unfold StandardRewardScaler.__init__. rewrite Htrue. simpl from_option.
    unfold StandardRewardScaler.fit. simpl.
    now rewrite collect_rewards_concat.
  - intros Hfalse. split; intros;
      [unfold MinMaxRewardScaler.__init__ | unfold StandardRewardScaler.__init__];
      now rewrite Hfalse.
Qed.

Lemma init_with_dataset_witness :
  (truthy {| episodes := corpus_float; truthy := true |} = true
   /\ np_min (non_first_rewards corpus_float) = Ok (-2)%float
   /\ np_max (non_first_rewards corpus_float) = Ok 7%float)
  /\ MinMaxRewardScaler.__init__
       (Some {| episodes := corpus_float; truthy := true |})
       (Some 0%float) (Some 1%float) 1%float
     = Ok (min_max_with (Some (-2)%float) (Some 7%float) 1%float)
  /\ (truthy {| episodes := corpus_float; truthy := false |} = false
      /\ MinMaxRewardScaler.__init__
           (Some {| episodes := corpus_float; truthy := false |})
           (Some 0%float) (Some 1%float) 1%float
         = MinMaxRewardScaler.__init__ None (Some 0%float) (Some 1%float) 1%float).
Proof.
  assert (Hlo : np_min (non_first_rewards corpus_float) = Ok (-2)%float)
    by (vm_compute; reflexivity).
  assert (Hhi : np_max (non_first_rewards corpus_float) = Ok 7%float)
    by (vm_compute; reflexivity).
  split; [now repeat split |]. split.
  - exact (proj2 (proj2 (proj1 (init_with_dataset
                                  {| episodes := corpus_float; truthy := true |})
                           eq_refl (Some 0%float) (Some 1%float) 1%float))
             (-2)%float 7%float Hlo Hhi).
  - split; [reflexivity |].
    exact (proj1 (proj2 (proj2 (init_with_dataset
                                  {| episodes := corpus_float; truthy := false |}))
                    eq_refl) (Some 0%float) (Some 1%float) 1%float).
Defined.

(** ** Batches *)

(** X18. Every transform works element by element: for any scaler object,
    [transform], [reverse_transform] and [transform_numpy] of a batch that is
    the concatenation of two batches is the concatenation of their results on
    the two (and fails if it fails on either), and a returned batch has as
    many elements as the batch given. *)
Theorem transforms_are_elementwise {T : Type} `{Scalar T} {numpy : NumpyClip}
    (self : scaler T) (r1 r2 : list T) :
  transform self (r1 ++ r2)
  = (o1 ← transform self r1; o2 ← transform self r2; Ok (o1 ++ o2))
  /\ reverse_transform self (r1 ++ r2)
     = (o1 ← reverse_transform self r1; o2 ← reverse_transform self r2;
        Ok (o1 ++ o2))
  /\ transform_numpy self (r1 ++ r2)
     = (o1 ← transform_numpy self r1; o2 ← transform_numpy self r2;
        Ok (o1 ++ o2))
  /\ (forall out, transform self r1 = Ok out -> length out = length r1)
  /\ (forall out, reverse_transform self r1 = Ok out -> length out = length r1)
  /\ (forall out, transform_numpy self r1 = Ok out -> length out = length r1).
Proof.
  destruct self as [[] | [[m|]] | [[lo|] [hi|] m] | [[lo|] [hi|] m]
                    | [[mu|] [sd|] e m]];
    simpl;
    unfold MultiplyRewardScaler.transform, MultiplyRewardScaler.reverse_transform,
      MultiplyRewardScaler.transform_numpy,
      ClipRewardScaler.transform, ClipRewardScaler.reverse_transform,
      ClipRewardScaler.transform_numpy,
      MinMaxRewardScaler.transform, MinMaxRewardScaler.reverse_transform,
      MinMaxRewardScaler.transform_numpy,
      StandardRewardScaler.transform, StandardRewardScaler.reverse_transform,
      StandardRewardScaler.transform_numpy,
      scalar_mul, mul_scalar, div_scalar, sub_scalar, add_scalar,
      tensor_clamp, np_clip; simpl;
    try destruct clip_requires_bound; simpl;
    rewrite ?List.map_app;
    repeat split; try reflexivity; try discriminate;
    intros out [= <-]; now rewrite ?List.length_map.
Qed.

Lemma transforms_are_elementwise_witness :
  transform (MinMax min_max_0_22) [11%float; 22%float]
  = Ok [0.5%float; 1%float]
  /\ length [0.5%float; 1%float] = length [11%float; 22%float].
Proof.
  assert (Hout : transform (MinMax min_max_0_22) [11%float; 22%float]
                 = Ok [0.5%float; 1%float]) by (vm_compute; reflexivity).
  split; [exact Hout |].
  exact (proj1 (proj2 (proj2 (proj2
           (transforms_are_elementwise (numpy := numpy_clip_passes)
              (MinMax min_max_0_22) [11%float; 22%float] [])))) _ Hout).
Defined.

(** ** The multiplier *)

(** X17. In exact arithmetic the multiplier of Clip, Min-Max and Standardize
    factors out: transforming with multiplier [m] gives the same batch as
    transforming with multiplier 1 and then applying the Multiply scaler with
    multiplier [m]; for a Clip scaler without any bound both fail with the
    same error. *)
Theorem multiplier_factors_out (m : Q) (reward : list Q) :
  (forall low high : option Q,
      same_outcome
        (ClipRewardScaler.transform (clip_with low high m) reward)
        (ClipRewardScaler.transform (clip_with low high 1%Q) reward
         ≫= MultiplyRewardScaler.transform (multiply_with (Some m))))
  /\ (forall minimum maximum : Q,
      exists out out',
        MinMaxRewardScaler.transform
          (min_max_with (Some minimum) (Some maximum) m) reward = Ok out
        /\ MinMaxRewardScaler.transform
             (min_max_with (Some minimum) (Some maximum) 1%Q) reward
           ≫= MultiplyRewardScaler.transform (multiply_with (Some m)) = Ok out'
        /\ batch_eq out out')
  /\ (forall mean std eps : Q,
      exists out out',
        StandardRewardScaler.transform
          (standard_with (Some mean) (Some std) eps m) reward = Ok out
        /\ StandardRewardScaler.transform
             (standard_with (Some mean) (Some std) eps 1%Q) reward
           ≫= MultiplyRewardScaler.transform (multiply_with (Some m)) = Ok out'
        /\ batch_eq out out').
Proof.
  split; [| split].
  - intros low high.
    destruct (decide (is_Some low \/ is_Some high)) as [Hbound | Hnone].
    + rewrite (clip_transform_bounds_present low high m reward Hbound),
        (clip_transform_bounds_present low high 1%Q reward Hbound).
      unfold same_outcome. simpl. unfold scalar_mul. rewrite List.map_map.
      apply batch_eq_map2. intros r.
      change (m * torch_clamp low high r == m * (1 * torch_clamp low high r))%Q.
      ring.
    + destruct low as [l|]; [exfalso; apply Hnone; left; eauto |].
      destruct high as [h|]; [exfalso; apply Hnone; right; eauto |].
      reflexivity.
  - intros minimum maximum. eexists _, _.
    split; [reflexivity |]. split; [reflexivity |].
    unfold div_scalar, scalar_mul, sub_scalar. rewrite !List.map_map.
    apply batch_eq_map2. intros r. simpl. unfold Qdiv. ring.
  - intros mean std eps. eexists _, _.
    split; [reflexivity |]. split; [reflexivity |].
    unfold div_scalar, scalar_mul, sub_scalar. rewrite !List.map_map.
    apply batch_eq_map2. intros r. simpl. unfold Qdiv. ring.
Qed.

(** ** Standardize *)

(** X19. In exact arithmetic, for Standardize with [std + eps] positive:
    [transform] maps the mean to 0 and the reward one [std + eps] above the
    mean to the multiplier, and with a multiplier that is not negative it
    preserves the order of rewards. *)
Theorem standard_transform_anchors (mean std eps multiplier : Q) :
  (0 < std + eps)%Q ->
  (exists y0 y1,
      StandardRewardScaler.transform
        (standard_with (Some mean) (Some std) eps multiplier)
        [mean; (mean + (std + eps))%Q] = Ok [y0; y1]
      /\ (y0 == 0)%Q /\ (y1 == multiplier)%Q)
  /\ (forall r1 r2 : Q,
      (0 <= multiplier)%Q -> (r1 <= r2)%Q ->
      exists y1 y2,
        StandardRewardScaler.transform
          (standard_with (Some mean) (Some std) eps multiplier) [r1; r2]
        = Ok [y1; y2]
        /\ (y1 <= y2)%Q).
Proof.
  intros Hpos. split.
  - eexists _, _. split; [reflexivity |]. simpl. split; field; lra.
  - intros r1 r2 Hm Hr. eexists _, _. split; [reflexivity |]. simpl.
    apply Qle_shift_div_r; [exact Hpos |].
    assert (Heq : (multiplier * (r2 - mean) / (std + eps) * (std + eps)
                   == multiplier * (r2 - mean))%Q) by (field; lra).
    rewrite Heq. nra.
Qed.

Lemma standard_transform_anchors_witness :
  ((0 < 2 + 1)%Q /\ (0 <= 3)%Q /\ (4 <= 5)%Q)
  /\ exists y1 y2,
       StandardRewardScaler.transform
         (standard_with (Some 4%Q) (Some 2%Q) 1%Q 3%Q) [4%Q; 5%Q]
       = Ok [y1; y2]
       /\ (y1 <= y2)%Q.
Proof.
  assert (Hpos : (0 < 2 + 1)%Q) by reflexivity.
  assert (Hm : (0 <= 3)%Q) by (vm_compute; discriminate).
  assert (Hr : (4 <= 5)%Q) by (vm_compute; discriminate).
  split; [now repeat split |].
  exact (proj2 (standard_transform_anchors 4%Q 2%Q 1%Q 3%Q Hpos) 4%Q 5%Q Hm Hr).
Defined.

(** ** What fit leaves alone *)

(** X20. [fit] only ever writes the statistics: whatever its outcome, Min-Max
    [fit] keeps the multiplier, Standardize [fit] keeps [eps] and the
    multiplier, and [fit] called through any scaler object returns an object of
    the same type. *)
Theorem fit_keeps_supplied_parameters {T : Type} `{Scalar T} `{Sqrt T}
    (eps : list (Episode T)) :
  (forall self : MinMaxRewardScaler.t T,
      MinMaxRewardScaler._multiplier (obj (MinMaxRewardScaler.fit self eps))
      = MinMaxRewardScaler._multiplier self)
  /\ (forall self : StandardRewardScaler.t T,
      StandardRewardScaler._eps (obj (StandardRewardScaler.fit self eps))
      = StandardRewardScaler._eps self
      /\ StandardRewardScaler._multiplier (obj (StandardRewardScaler.fit self eps))
         = StandardRewardScaler._multiplier self)
  /\ (forall self : scaler T, get_type (obj (fit self eps)) = get_type self).
Proof.
  assert (Hmm : forall self : MinMaxRewardScaler.t T,
             MinMaxRewardScaler._multiplier (obj (MinMaxRewardScaler.fit self eps))
             = MinMaxRewardScaler._multiplier self).
  { intros self.
    destruct (min_max_fit_outcome self eps)
      as [Hfit | [_ [[_ Hfit] | [_ (lo & hi & Hfit)]]]]; now rewrite Hfit. }
  assert (Hst : forall self : StandardRewardScaler.t T,
             StandardRewardScaler._eps (obj (StandardRewardScaler.fit self eps))
             = StandardRewardScaler._eps self
             /\ StandardRewardScaler._multiplier
                  (obj (StandardRewardScaler.fit self eps))
                = StandardRewardScaler._multiplier self).
  { intros self. unfold StandardRewardScaler.fit.
    destruct (is_not_None (StandardRewardScaler._mean self)
              && is_not_None (StandardRewardScaler._std self)); split; reflexivity. }
  split; [exact Hmm |]. split; [exact Hst |].
  intros [s | s | s | s | s]; reflexivity.
Qed.
